(** * sec-parser: table metrics, table detection and tree rendering

    A shallow embedding of
      - [sec_parser/utils/bs4_/approx_table_metrics.py],
      - [sec_parser/processing_steps/table_parsing_step.py],
      - [sec_parser/semantic_tree/render_.py],
    together with the properties of these three functions. *)

From Stdlib Require Import String Ascii DecimalString.
From Stdlib Require Import List ZArith NArith Bool Lia.
Import ListNotations.

Set Warnings "-register-all".
Local Open Scope string_scope.
Local Open Scope list_scope.
Local Open Scope Z_scope.

(** ** Python values *)

Module Py.

(** A Python [str] is a sequence of Unicode code points. *)
Definition char := N.
Definition str := list char.

(** An ASCII literal of the source, as a [str]. *)
Definition lit (s : string) : str :=
  List.map N_of_ascii (list_ascii_of_string s).

Definition in_range (lo hi c : N) : bool := ((lo <=? c) && (c <=? hi))%N.

(** [str.isspace] on one character: the white-space table of CPython
    ([_PyUnicode_IsWhitespace]). *)
Definition isspace (c : char) : bool :=
  in_range 9 13 c || in_range 28 32 c
  || (c =? 133)%N || (c =? 160)%N || (c =? 5760)%N
  || in_range 8192 8202 c
  || (c =? 8232)%N || (c =? 8233)%N || (c =? 8239)%N
  || (c =? 8287)%N || (c =? 12288)%N.

(** First code points of the runs of ten decimal digits (general category
    Nd, Unicode 15); the mathematical digits 1D7CE..1D7FF are one run of
    fifty and are tested apart. *)
Definition decimal_zeros : list N :=
  [ 0x0030; 0x0660; 0x06F0; 0x07C0; 0x0966; 0x09E6; 0x0A66; 0x0AE6;
    0x0B66; 0x0BE6; 0x0C66; 0x0CE6; 0x0D66; 0x0DE6; 0x0E50; 0x0ED0;
    0x0F20; 0x1040; 0x1090; 0x17E0; 0x1810; 0x1946; 0x19D0; 0x1A80;
    0x1A90; 0x1B50; 0x1BB0; 0x1C40; 0x1C50; 0xA620; 0xA8D0; 0xA900;
    0xA9D0; 0xA9F0; 0xAA50; 0xABF0; 0xFF10;
    0x104A0; 0x10D30; 0x11066; 0x110F0; 0x11136; 0x111D0; 0x112F0;
    0x11450; 0x114D0; 0x11650; 0x116C0; 0x11730; 0x118E0; 0x11950;
    0x11C50; 0x11D50; 0x11DA0; 0x11F50; 0x16A60; 0x16AC0; 0x16B50;
    0x1E140; 0x1E2F0; 0x1E4F0; 0x1E950; 0x1FBF0 ]%N.

(** A character that is not white space. *)
Definition nonspace (c : char) : bool := negb (isspace c).

(** The class [\d] of [re] on a [str] pattern: a Unicode decimal digit. *)
Definition isdecimal (c : char) : bool :=
  existsb (fun z => in_range z (z + 9) c) decimal_zeros
  || in_range 0x1D7CE 0x1D7FF c.

(** [re.search(r"\d", s)] taken as a boolean: some character of [s] is a
    decimal digit. *)
Definition search_digit (s : str) : bool := existsb isdecimal s.

Fixpoint lstrip (s : str) : str :=
  match s with
  | [] => []
  | c :: s' => if isspace c then lstrip s' else s
  end.

Definition rstrip (s : str) : str := rev (lstrip (rev s)).

(** [s.strip()] *)
Definition strip (s : str) : str := rstrip (lstrip s).

(** Truth value of a [str]: it is not empty. *)
Definition truthy (s : str) : bool :=
  match s with [] => false | _ :: _ => true end.

(** [s[:stop]] for an integer [stop] of either sign. *)
Definition slice_to (s : str) (stop : Z) : str :=
  let len := Z.of_nat (length s) in
  let stop := if stop <? 0 then Z.max 0 (stop + len) else Z.min stop len in
  firstn (Z.to_nat stop) s.

(** [s[start:]] for an integer [start] of either sign. *)
Definition slice_from (s : str) (start : Z) : str :=
  let len := Z.of_nat (length s) in
  let start := if start <? 0 then Z.max 0 (start + len) else Z.min start len in
  skipn (Z.to_nat start) s.

(** [sep.join(parts)] *)
Fixpoint join (sep : str) (parts : list str) : str :=
  match parts with
  | [] => []
  | [p] => p
  | p :: rest => p ++ sep ++ join sep rest
  end.

(** Two lists of strings that join to the same text, and are empty
    together. *)
Definition same_text (sep : str) (xs ys : list str) : Prop :=
  (xs = [] <-> ys = []) /\ join sep xs = join sep ys.

(** [str(n)] for an integer. *)
Definition str_of_int (n : Z) : str := lit (NilZero.string_of_int (Z.to_int n)).

(** [int(b)], as [sum] takes a boolean. *)
Definition int_of_bool (b : bool) : Z := if b then 1 else 0.

(** [sum(xs)] *)
Definition sum (xs : list Z) : Z := fold_right Z.add 0 xs.

End Py.

(** ** Exceptions and results *)

(** Which way the one-table precondition failed. *)
Inductive precondition_failure : Type :=
| NoTableFound
| AmbiguousTable.

Inductive exception : Type :=
| StructuralPreconditionError (why : precondition_failure)
| AttributeError.

Inductive result (A : Type) : Type :=
| Ok (a : A)
| Raise (e : exception).
Arguments Ok {A} a.
Arguments Raise {A} e.

Definition bind {A B : Type} (r : result A) (k : A -> result B) : result B :=
  match r with
  | Ok a => k a
  | Raise e => Raise e
  end.

Notation "x <- r ;; k" := (bind r (fun x => k))
  (at level 61, r at next level, right associativity).

(** ** The parsed document (bs4) *)

Module Bs4.

(** A node of the parsed document: a text node or a tag with its child
    nodes in document order. *)
Inductive PageElement : Type :=
| NavigableString (s : Py.str)
| Tag (name : string) (contents : list PageElement).

Definition contents_of (e : PageElement) : list PageElement :=
  match e with
  | NavigableString _ => []
  | Tag _ cs => cs
  end.

Definition has_name (name : string) (e : PageElement) : bool :=
  match e with
  | NavigableString _ => false
  | Tag n _ => String.eqb n name
  end.

(** [tag.descendants]: every node below [e], in document order. *)
Fixpoint descendants (e : PageElement) : list PageElement :=
  match e with
  | NavigableString _ => []
  | Tag _ cs => flat_map (fun c => c :: descendants c) cs
  end.

(** [tag.find_all(name)] *)
Definition find_all (name : string) (e : PageElement) : list PageElement :=
  filter (has_name name) (descendants e).

(** [tag.find(name)]: the first match, or [None]. *)
Definition find (name : string) (e : PageElement) : option PageElement :=
  hd_error (find_all name e).

(** [tag.text]: the strings below the node, concatenated. *)
Fixpoint text (e : PageElement) : Py.str :=
  match e with
  | NavigableString s => s
  | Tag _ cs => flat_map text cs
  end.

End Bs4.
Import Bs4.

(** ** Table metrics ([approx_table_metrics.py]) *)

Module TableMetrics.

(** The tables reachable from a node: the node itself when it is a table,
    and the tables below it, in document order. *)
Definition reachable_tables (bs4_tag : PageElement) : list PageElement :=
  (if has_name "table" bs4_tag then [bs4_tag] else [])
  ++ find_all "table" bs4_tag.

(** Modelled from the spec: [get_single_table], imported from
    [sec_parser/utils/bs4_/get_single_table.py], which is not among the
    sources.  Exactly one reachable table is returned; none is the
    "no table found" failure and several the "ambiguous table" one. *)
Definition get_single_table (bs4_tag : PageElement) : result PageElement :=
  match reachable_tables bs4_tag with
  | [] => Raise (StructuralPreconditionError NoTableFound)
  | [table] => Ok table
  | _ :: _ :: _ => Raise (StructuralPreconditionError AmbiguousTable)
  end.

Record ApproxTableMetrics : Type := mkApproxTableMetrics {
  rows : Z;
  numbers : Z
}.

(** [sum(1 for row in trs if row.find("td").text.strip())]: rows are
    visited in order, and [row.find("td")] being [None] raises at its
    [.text]. *)
Fixpoint count_rows (trs : list PageElement) : result Z :=
  match trs with
  | [] => Ok 0
  | row :: trs' =>
      match find "td" row with
      | None => Raise AttributeError
      | Some td =>
          n <- count_rows trs' ;;
          Ok ((if Py.truthy (Py.strip (text td)) then 1 else 0) + n)
      end
  end.

(** [sum(bool(re.search(r"\d", cell.text)) for cell in tds
        if cell.text.strip())] *)
Definition count_numbers (tds : list PageElement) : Z :=
  Py.sum
    (map (fun cell => Py.int_of_bool (Py.search_digit (text cell)))
         (filter (fun cell => Py.truthy (Py.strip (text cell))) tds)).

Definition get_approx_table_metrics (bs4_tag : PageElement)
  : result ApproxTableMetrics :=
  table <- get_single_table bs4_tag ;;
  rows <- count_rows (find_all "tr" table) ;;
  let numbers := count_numbers (find_all "td" table) in
  Ok (mkApproxTableMetrics rows numbers).

(** *** The counts in the words of the specification *)

(** Some character of [s] is not white space. *)
Definition nonblank (s : Py.str) : bool := existsb Py.nonspace s.

(** The first data cell of the row exists and its text is not blank. *)
Definition first_cell_nonblank (row : PageElement) : bool :=
  match find "td" row with
  | Some td => nonblank (text td)
  | None => false
  end.

(** The text of the cell is not blank and has a decimal digit. *)
Definition digit_cell (cell : PageElement) : bool :=
  nonblank (text cell) && existsb Py.isdecimal (text cell).

(** *** Building a table from a grid of cell texts *)

(** [<td>s</td>]; an empty cell has no text node. *)
Definition td (s : string) : PageElement :=
  Tag "td" (match s with EmptyString => [] | _ => [NavigableString (Py.lit s)] end).

Definition tr (cells : list string) : PageElement := Tag "tr" (map td cells).

Definition table_of_grid (grid : list (list string)) : PageElement :=
  Tag "table" (map tr grid).

Definition example_grid : list (list string) :=
  [["1"; "2"]; [EmptyString; "3"]; ["4"; "5"]].

End TableMetrics.
Import TableMetrics.

(** ** Semantic elements *)

Module Elements.

(** Modelled from the spec: the classes of
    [sec_parser/semantic_elements/semantic_elements.py], which is not
    among the sources; the closed set of variants Text, Title, Table,
    Irrelevant and Generic, each a direct subclass of
    [AbstractSemanticElement]. *)
Inductive ElementClass : Type :=
| TextElement
| TitleElement
| TableElement
| IrrelevantElement
| GenericElement.

Definition class_eqb (a b : ElementClass) : bool :=
  match a, b with
  | TextElement, TextElement
  | TitleElement, TitleElement
  | TableElement, TableElement
  | IrrelevantElement, IrrelevantElement
  | GenericElement, GenericElement => true
  | _, _ => false
  end.

(** [cls.__name__] *)
Definition class_name (c : ElementClass) : Py.str :=
  Py.lit match c with
         | TextElement => "TextElement"
         | TitleElement => "TitleElement"
         | TableElement => "TableElement"
         | IrrelevantElement => "IrrelevantElement"
         | GenericElement => "GenericElement"
         end.

(** The node wrapper of an element is the wrapped document node. *)
Definition HtmlTag : Type := PageElement.

(** Modelled from the spec: a semantic element, an instance of one of the
    classes with the node wrapper it comes from and, on the variants that
    carry one, the attribute [level]. *)
Record AbstractSemanticElement : Type := mkElement {
  element_class : ElementClass;
  html_tag : HtmlTag;
  level : option Z
}.

(** [isinstance(element, types)] for a tuple of classes. *)
Definition isinstance (element : AbstractSemanticElement)
           (types : list ElementClass) : bool :=
  existsb (class_eqb (element_class element)) types.

(** Modelled from the spec: [HtmlTag.is_unary_tree], the linear chain of
    the spec; no node from this one down to the leaf has more than one
    child. *)
Fixpoint is_unary_tree (t : HtmlTag) : bool :=
  match t with
  | NavigableString _ => true
  | Tag _ cs =>
      match cs with
      | [] => true
      | [c] => is_unary_tree c
      | _ :: _ :: _ => false
      end
  end.

(** Modelled from the spec: [HtmlTag.contains_tag]; a node below this one,
    or this one when [include_self], has the name. *)
Definition contains_tag (name : string) (include_self : bool) (t : HtmlTag)
  : bool :=
  (include_self && has_name name t) || existsb (has_name name) (descendants t).

(** Modelled from the spec: [cls.convert_from(element)], a new element of
    the target class on the same node wrapper. *)
Definition convert_from (cls : ElementClass) (element : AbstractSemanticElement)
  : AbstractSemanticElement :=
  mkElement cls (html_tag element) None.

End Elements.
Import Elements.

(** ** Table detection ([table_parsing_step.py]) *)

Module TableParsingStep.

Section Step.

(** The context of an elementwise step; this step does not read it. *)
Variable ElementwiseProcessingContext : Type.

Definition _transform_element (element : AbstractSemanticElement)
           (_ : ElementwiseProcessingContext) : AbstractSemanticElement :=
  let is_unary := is_unary_tree (html_tag element) in
  let contains_table := contains_tag "table" true (html_tag element) in
  if is_unary && contains_table
  then convert_from TableElement element
  else element.

(** Modelled from the spec: the elementwise driver of
    [AbstractElementwiseTransformStep], which transforms each position
    on its own. *)
Definition process (elements : list AbstractSemanticElement)
           (context : ElementwiseProcessingContext)
  : list AbstractSemanticElement :=
  map (fun element => _transform_element element context) elements.

End Step.

End TableParsingStep.

(** ** Rendering of the semantic tree ([render_.py]) *)

Module Render.

(** A node owns one element and its children, in document order. *)
Inductive TreeNode : Type :=
| mkTreeNode (semantic_element : AbstractSemanticElement)
             (children : list TreeNode).

Definition semantic_element (node : TreeNode) : AbstractSemanticElement :=
  match node with mkTreeNode e _ => e end.

Definition children (node : TreeNode) : list TreeNode :=
  match node with mkTreeNode _ cs => cs end.

(** A semantic tree owns its root nodes, in document order. *)
Record SemanticTree : Type := mkSemanticTree { root_nodes_of : list TreeNode }.

(** [list(tree)]: iterating a semantic tree yields its root nodes. *)
Definition list_of_tree (tree : SemanticTree) : list TreeNode :=
  root_nodes_of tree.

(** The first argument of [render]:
    [list[TreeNode] | TreeNode | SemanticTree]. *)
Inductive RenderInput : Type :=
| OfNode (node : TreeNode)
| OfTree (tree : SemanticTree)
| OfList (nodes : list TreeNode).

Definition DEFAULT_CHAR_DISPLAY_LIMIT : Z := 50.

(** The literals of the source. *)
Definition ESC : Py.str := [27%N].
Definition BRANCH : Py.str := [0x251C; 0x2500; 0x2500; 0x20]%N.   (* "├── " *)
Definition CORNER : Py.str := [0x2514; 0x2500; 0x2500; 0x20]%N.   (* "└── " *)
Definition PIPE : Py.str := [0x2502; 0x20; 0x20; 0x20]%N.         (* "│   " *)
Definition BLANK : Py.str := Py.lit "    ".
Definition NEWLINE : Py.str := [10%N].

(** [pretty if pretty is not None else True] *)
Definition pretty_or_default (pretty : option bool) : bool :=
  match pretty with
  | Some b => b
  | None => true
  end.

(** [ignored_types or (IrrelevantElement,)]: [None] and the empty tuple
    are both false. *)
Definition ignored_types_or_default (ignored_types : option (list ElementClass))
  : list ElementClass :=
  match ignored_types with
  | Some (c :: cs) => c :: cs
  | Some [] | None => [IrrelevantElement]
  end.

(** [char_display_limit if char_display_limit and char_display_limit > 0
     else DEFAULT_CHAR_DISPLAY_LIMIT] *)
Definition char_display_limit_or_default (char_display_limit : option Z) : Z :=
  match char_display_limit with
  | Some n => if negb (n =? 0) && (n >? 0) then n
              else DEFAULT_CHAR_DISPLAY_LIMIT
  | None => DEFAULT_CHAR_DISPLAY_LIMIT
  end.

(** Lines 68 to 70: the summary as it is displayed under a limit. *)
Definition truncate (char_display_limit : Z) (contents : Py.str) : Py.str :=
  if Z.of_nat (length contents) >? char_display_limit then
    let half_limit := (char_display_limit - 3) / 2 in
    Py.slice_to contents half_limit ++ Py.lit "..."
                ++ Py.slice_from contents (- half_limit)
  else contents.

(** [enumerate(xs)], counting from [i]. *)
Fixpoint enumerate_from {A : Type} (i : Z) (xs : list A) : list (Z * A) :=
  match xs with
  | [] => []
  | x :: xs' => (i, x) :: enumerate_from (i + 1) xs'
  end.

Section WithSummary.

(** [element.get_summary()]: a method of the element classes, taken as a
    parameter. *)
Variable get_summary : AbstractSemanticElement -> Py.str.

(** [element.get_summary().strip()], truncated to the limit. *)
Definition displayed_summary (char_display_limit : Z)
           (element : AbstractSemanticElement) : Py.str :=
  truncate char_display_limit (Py.strip (get_summary element)).

(** Lines 55 to 77: the line of one node that is not ignored. *)
Definition line_of (pretty : bool) (char_display_limit : Z)
           (_prefix : Py.str) (_is_root is_last : bool)
           (element : AbstractSemanticElement) : Py.str :=
  let indent := if negb is_last then BRANCH else CORNER in
  let level :=
    match level element with
    | Some lvl =>
        if lvl =? 0 then []
        else
          let level := Py.lit "[L" ++ Py.str_of_int lvl ++ Py.lit "]" in
          if pretty then ESC ++ Py.lit "[1;92m" ++ level ++ ESC ++ Py.lit "[0m"
          else level
    | None => []
    end in
  let class_name := class_name (element_class element) ++ level in
  let contents := displayed_summary char_display_limit element in
  let class_name :=
    if pretty then ESC ++ Py.lit "[1;34m" ++ class_name ++ ESC ++ Py.lit "[0m"
    else class_name in
  let line :=
    if negb _is_root then _prefix ++ indent ++ class_name else class_name in
  if Py.truthy contents then line ++ Py.lit ": " ++ contents else line.

(** One turn of the loop of [render] at the node of index [i] among
    [len_nodes]: what it appends to [tree_strings].  The inner loop is
    the recursive call of [render] on [node.children]. *)
Fixpoint loop_body (pretty : option bool)
         (ignored_types : option (list ElementClass))
         (char_display_limit : option Z)
         (_prefix : Py.str) (_is_root : bool)
         (len_nodes i : Z) (node : TreeNode) {struct node} : list Py.str :=
  let pretty := pretty_or_default pretty in
  let ignored_types := ignored_types_or_default ignored_types in
  let char_display_limit := char_display_limit_or_default char_display_limit in
  match node with
  | mkTreeNode element node_children =>
      if isinstance element ignored_types then []
      else
        let is_last := i =? len_nodes - 1 in
        let new_prefix := if negb is_last then PIPE else BLANK in
        let line :=
          line_of pretty char_display_limit _prefix _is_root is_last element in
        let sub_prefix := _prefix ++ (if _is_root then _prefix else new_prefix) in
        let sub_len := Z.of_nat (length node_children) in
        [ line;
          Py.join NEWLINE
            (filter Py.truthy
               ((fix each (j : Z) (nodes : list TreeNode) : list Py.str :=
                   match nodes with
                   | [] => []
                   | child :: nodes' =>
                       loop_body (Some pretty) (Some ignored_types)
                                 (Some char_display_limit)
                                 sub_prefix false sub_len j child
                       ++ each (j + 1) nodes'
                   end) 0 node_children)) ]
  end.

(** [tree_strings] when the loop over [_nodes] ends. *)
Definition tree_strings (pretty : option bool)
           (ignored_types : option (list ElementClass))
           (char_display_limit : option Z)
           (_prefix : Py.str) (_is_root : bool)
           (_nodes : list TreeNode) : list Py.str :=
  flat_map
    (fun '(i, node) =>
       loop_body pretty ignored_types char_display_limit _prefix _is_root
                 (Z.of_nat (length _nodes)) i node)
    (enumerate_from 0 _nodes).

Definition render (tree : RenderInput)
           (pretty : option bool)
           (ignored_types : option (list ElementClass))
           (char_display_limit : option Z)
           (_nodes : option (list TreeNode))
           (_level : Z) (_prefix : Py.str) (_is_root : bool) : Py.str :=
  let root_nodes :=
    match tree with
    | OfNode node => [node]
    | OfTree t => list_of_tree t
    | OfList nodes => nodes
    end in
  let _nodes := match _nodes with Some ns => ns | None => root_nodes end in
  Py.join NEWLINE
    (filter Py.truthy
       (tree_strings pretty ignored_types char_display_limit
                     _prefix _is_root _nodes)).

(** [render(tree)] with every keyword argument left out but those
    given. *)
Definition render_top (tree : RenderInput)
           (pretty : option bool)
           (ignored_types : option (list ElementClass))
           (char_display_limit : option Z) : Py.str :=
  render tree pretty ignored_types char_display_limit None 0 [] true.

(** The nodes that [render] visits without skipping them, each with the
    line appended for it, in the order of the appends. *)
Fixpoint emitted_node (pretty : bool) (ignored_types : list ElementClass)
         (char_display_limit : Z) (_prefix : Py.str) (_is_root : bool)
         (len_nodes i : Z) (node : TreeNode) {struct node}
  : list (TreeNode * Py.str) :=
  match node with
  | mkTreeNode element node_children =>
      if isinstance element ignored_types then []
      else
        let is_last := i =? len_nodes - 1 in
        let new_prefix := if negb is_last then PIPE else BLANK in
        let sub_prefix := _prefix ++ (if _is_root then _prefix else new_prefix) in
        let sub_len := Z.of_nat (length node_children) in
        (node, line_of pretty char_display_limit _prefix _is_root is_last element)
          :: (fix each (j : Z) (nodes : list TreeNode) :=
                match nodes with
                | [] => []
                | child :: nodes' =>
                    emitted_node pretty ignored_types char_display_limit
                                 sub_prefix false sub_len j child
                    ++ each (j + 1) nodes'
                end) 0 node_children
  end.

Definition emitted (pretty : bool) (ignored_types : list ElementClass)
           (char_display_limit : Z) (_prefix : Py.str) (_is_root : bool)
           (_nodes : list TreeNode) : list (TreeNode * Py.str) :=
  flat_map
    (fun '(i, node) =>
       emitted_node pretty ignored_types char_display_limit _prefix _is_root
                    (Z.of_nat (length _nodes)) i node)
    (enumerate_from 0 _nodes).

End WithSummary.

(** The lines of the entries that [filter(None, ...)] keeps. *)
Definition lines (entries : list (TreeNode * Py.str)) : list Py.str :=
  filter Py.truthy (map snd entries).

(** The root nodes [render] starts from. *)
Definition root_nodes (tree : RenderInput) : list TreeNode :=
  match tree with
  | OfNode node => [node]
  | OfTree t => root_nodes_of t
  | OfList nodes => nodes
  end.

(** The tree with the children of every ignored node removed; the ignored
    node itself stays in place. *)
Fixpoint prune (ignored_types : list ElementClass) (node : TreeNode) : TreeNode :=
  match node with
  | mkTreeNode element node_children =>
      if isinstance element ignored_types then mkTreeNode element []
      else mkTreeNode element (map (prune ignored_types) node_children)
  end.

Definition prune_input (ignored_types : list ElementClass) (tree : RenderInput)
  : RenderInput :=
  match tree with
  | OfNode node => OfNode (prune ignored_types node)
  | OfTree t => OfTree (mkSemanticTree (map (prune ignored_types) (root_nodes_of t)))
  | OfList nodes => OfList (map (prune ignored_types) nodes)
  end.

End Render.
Import Render.

(** ** Inputs of the examples *)

Module Examples.

(** outer -> inner -> table, no siblings at any level. *)
Definition chain_to_table : HtmlTag :=
  Tag "div" [Tag "div" [Tag "table" []]].

(** outer -> [table, paragraph]: the table has a sibling. *)
Definition table_with_sibling : HtmlTag :=
  Tag "div" [Tag "table" []; Tag "p" []].

(** A table whose only row is a header row of [th] cells. *)
Definition header_only_table : PageElement :=
  Tag "table" [Tag "tr" [Tag "th" [NavigableString (Py.lit "Year")]]].

(** An element whose summary is its node's text. *)
Definition text_summary (element : AbstractSemanticElement) : Py.str :=
  text (html_tag element).

Definition leaf (cls : ElementClass) (s : Py.str) : TreeNode :=
  mkTreeNode (mkElement cls (NavigableString s) None) [].

(** Eighty distinct characters, none of them white space. *)
Definition eighty : Py.str := map N.of_nat (seq 1000 80).

(** A title over an irrelevant node that has a text child. *)
Definition hidden_child : TreeNode :=
  mkTreeNode (mkElement TitleElement (NavigableString (Py.lit "Top")) (Some 1))
    [ mkTreeNode (mkElement IrrelevantElement (NavigableString (Py.lit "skip")) None)
        [ leaf TextElement (Py.lit "inner") ];
      leaf TextElement (Py.lit "after") ].

End Examples.
Import Examples.

(** ** Trees of elements *)

Module TreeTools.

(** The tree with [f] applied to the element of every node. *)
Fixpoint map_elements (f : AbstractSemanticElement -> AbstractSemanticElement)
         (node : TreeNode) : TreeNode :=
  match node with
  | mkTreeNode element node_children =>
      mkTreeNode (f element) (map (map_elements f) node_children)
  end.

(** The element with a level of zero taken off. *)
Definition clear_zero_level (element : AbstractSemanticElement)
  : AbstractSemanticElement :=
  match level element with
  | Some 0 => mkElement (element_class element) (html_tag element) None
  | _ => element
  end.

(** The elements of a tree, each node before its children. *)
Fixpoint preorder (node : TreeNode) : list AbstractSemanticElement :=
  match node with
  | mkTreeNode element node_children =>
      element :: flat_map preorder node_children
  end.

End TreeTools.
Import TreeTools.

(** ** The tree view of the visualizer ([app.py]) *)

Module Visualizer.

(** What the calls to streamlit put on the page: an expander with its title,
    its [expanded] flag and what the [with] block puts inside it, the HTML
    given to [st.markdown], or the text given to [st.code]. *)
Inductive Widget : Type :=
| Expander (title : Py.str) (expanded : bool) (body : list Widget)
| Markdown (html : Py.str)
| Code (text : Py.str).

Section App.

(** [get_pretty_class_name] and [remove_ix_tags] of [_utils.misc], and the
    serializations [str(tag)] and [tag.prettify()] of bs4, taken as
    parameters. *)
Variable get_pretty_class_name : ElementClass -> AbstractSemanticElement -> Py.str.
Variable remove_ix_tags : Py.str -> Py.str.
Variable str_of_tag : HtmlTag -> Py.str.
Variable prettify : HtmlTag -> Py.str.

(** The values of the widgets "Render HTML" and "Expand Depth". *)
Variable do_element_render_html : bool.
Variable expand_depth : Z.

Definition render_semantic_element (element : AbstractSemanticElement) : Widget :=
  if do_element_render_html
  then Markdown (remove_ix_tags (str_of_tag (html_tag element)))
  else Code (prettify (html_tag element)).

Fixpoint render_tree_node (tree_node : TreeNode) (_current_depth : Z) : Widget :=
  match tree_node with
  | mkTreeNode element node_children =>
      let expander_title :=
        get_pretty_class_name (element_class element) element in
      Expander expander_title (expand_depth >? _current_depth)
        (render_semantic_element element
           :: map (fun child => render_tree_node child (_current_depth + 1))
                  node_children)
  end.

(** [for root_node in tree.root_nodes: render_tree_node(root_node)] *)
Definition render_tree (tree : SemanticTree) : list Widget :=
  map (fun root_node => render_tree_node root_node 0) (root_nodes_of tree).

End App.

(** The titles of the expanders of a widget, in the order they are opened. *)
Fixpoint titles (w : Widget) : list Py.str :=
  match w with
  | Expander title _ body => title :: flat_map titles body
  | Markdown _ | Code _ => []
  end.



End Visualizer.

(** * Properties *)

(** ** Strings *)

Section StringFacts.

Lemma truthy_lstrip (s : Py.str) :
  Py.truthy (Py.lstrip s) = existsb Py.nonspace s.
Proof.
  induction s as [|c s IH]; simpl; [reflexivity|].
  unfold Py.nonspace at 1. destruct (Py.isspace c); simpl; auto.
Qed.

Lemma existsb_lstrip (s : Py.str) :
  existsb Py.nonspace (Py.lstrip s) = existsb Py.nonspace s.
Proof.
  induction s as [|c s IH]; simpl; [reflexivity|].
  destruct (Py.isspace c) eqn:E; simpl.
  - unfold Py.nonspace at 2. rewrite E. simpl. exact IH.
  - reflexivity.
Qed.

Lemma truthy_rev (s : Py.str) : Py.truthy (rev s) = Py.truthy s.
Proof.
  destruct s as [|c s]; simpl; [reflexivity|].
  destruct (rev s); reflexivity.
Qed.

Lemma existsb_rev {A : Type} (f : A -> bool) (l : list A) :
  existsb f (rev l) = existsb f l.
Proof.
  induction l as [|a l IH]; simpl; [reflexivity|].
  rewrite existsb_app, IH. simpl. rewrite orb_false_r. apply orb_comm.
Qed.

(** [s.strip()] is true exactly when [s] is not blank. *)
Lemma truthy_strip (s : Py.str) :
  Py.truthy (Py.strip s) = nonblank s.
Proof.
  unfold Py.strip, Py.rstrip, nonblank.
  rewrite truthy_rev, truthy_lstrip, existsb_rev.
  apply existsb_lstrip.
Qed.

Lemma length_lstrip (s : Py.str) : (length (Py.lstrip s) <= length s)%nat.
Proof.
  induction s as [|c s IH]; simpl; [lia|].
  destruct (Py.isspace c); simpl; lia.
Qed.

Lemma length_strip (s : Py.str) : (length (Py.strip s) <= length s)%nat.
Proof.
  unfold Py.strip, Py.rstrip. rewrite length_rev.
  etransitivity; [apply length_lstrip|].
  rewrite length_rev. apply length_lstrip.
Qed.

End StringFacts.

(** ** Table metrics *)

Section TableMetricsFacts.

Lemma count_rows_total (trs : list PageElement) :
  (forall row, In row trs -> find "td" row <> None) ->
  count_rows trs = Ok (Z.of_nat (length (filter first_cell_nonblank trs))).
Proof.
  induction trs as [|row trs IH]; intros Htd; [reflexivity|].
  simpl. unfold first_cell_nonblank at 1.
  destruct (find "td" row) as [cell|] eqn:E.
  - rewrite IH by (intros r Hr; apply Htd; now right).
    cbn [bind]. rewrite truthy_strip.
    destruct (nonblank (text cell)); cbn [length]; f_equal; lia.
  - exfalso. apply (Htd row); [now left | exact E].
Qed.

Lemma count_rows_raises (trs : list PageElement) (row : PageElement) :
  In row trs -> find "td" row = None ->
  count_rows trs = Raise AttributeError.
Proof.
  induction trs as [|r trs IH]; intros Hin Hnone; [destruct Hin|].
  simpl. destruct Hin as [->|Hin].
  - now rewrite Hnone.
  - destruct (find "td" r); [|reflexivity].
    now rewrite (IH Hin Hnone).
Qed.

Lemma count_rows_ok_inv (trs : list PageElement) (n : Z) :
  count_rows trs = Ok n ->
  forall row, In row trs -> find "td" row <> None.
Proof.
  intros Hok row Hin Hnone.
  rewrite (count_rows_raises trs row Hin Hnone) in Hok. discriminate.
Qed.

Lemma count_numbers_spec (tds : list PageElement) :
  count_numbers tds = Z.of_nat (length (filter digit_cell tds)).
Proof.
  unfold count_numbers.
  induction tds as [|cell tds IH]; [reflexivity|].
  cbn [filter]. unfold digit_cell at 1. rewrite truthy_strip.
  destruct (nonblank (text cell)); cbn [andb]; [|exact IH].
  cbn [map]. unfold Py.sum in *. cbn [fold_right]. rewrite IH.
  unfold Py.search_digit, Py.int_of_bool.
  destruct (existsb Py.isdecimal (text cell)); cbn [length]; lia.
Qed.

Lemma get_approx_table_metrics_ok_inv (bs4_tag : PageElement)
      (m : ApproxTableMetrics) :
  get_approx_table_metrics bs4_tag = Ok m ->
  exists table,
    get_single_table bs4_tag = Ok table
    /\ count_rows (find_all "tr" table) = Ok (rows m)
    /\ numbers m = count_numbers (find_all "td" table).
Proof.
  unfold get_approx_table_metrics. intros H.
  destruct (get_single_table bs4_tag) as [table|e]; [|discriminate].
  simpl in H.
  destruct (count_rows (find_all "tr" table)) as [r|e] eqn:Hrows; [|discriminate].
  simpl in H. injection H as <-. exists table. simpl. auto.
Qed.

End TableMetricsFacts.

(** C1, as the code has it: on the grid of rows 1 2, (blank) 3 and 4 5
    [get_approx_table_metrics] returns [numbers = 5]; [numbers] is the count
    of the data cells of the whole table whose text is not blank and has a
    decimal digit, and the cell "3" of the row with the blank first cell is
    one of them. *)
Theorem numbers_counts_digit_cells :
  get_approx_table_metrics (table_of_grid example_grid)
  = Ok (mkApproxTableMetrics 2 5)
  /\ get_approx_table_metrics (Tag "div" [table_of_grid example_grid])
     = Ok (mkApproxTableMetrics 2 5)
  /\ filter digit_cell (find_all "td" (table_of_grid example_grid))
     = [td "1"; td "2"; td "3"; td "4"; td "5"]
  /\ forall bs4_tag m,
       get_approx_table_metrics bs4_tag = Ok m ->
       exists table,
         get_single_table bs4_tag = Ok table
         /\ numbers m = Z.of_nat (length (filter digit_cell (find_all "td" table))).
Proof.
  split; [reflexivity|]. split; [reflexivity|]. split; [reflexivity|].
  intros bs4_tag m H.
  destruct (get_approx_table_metrics_ok_inv bs4_tag m H) as (table & Ht & _ & Hn).
  exists table. split; [exact Ht|].
  rewrite Hn. apply count_numbers_spec.
Qed.

Lemma numbers_counts_digit_cells_witness :
  get_approx_table_metrics (table_of_grid example_grid)
  = Ok (mkApproxTableMetrics 2 5)
  /\ exists table,
       get_single_table (table_of_grid example_grid) = Ok table
       /\ numbers (mkApproxTableMetrics 2 5)
          = Z.of_nat (length (filter digit_cell (find_all "td" table))).
Proof.
  split; [reflexivity|].
  apply (proj2 (proj2 (proj2 numbers_counts_digit_cells))
               (table_of_grid example_grid)).
  reflexivity.
Defined.

(** C1 as stated fails: on that grid [numbers] is 5, not 4. *)
Lemma example_grid_numbers_is_not_4 :
  exists m,
    get_approx_table_metrics (table_of_grid example_grid) = Ok m
    /\ numbers m = 5 /\ numbers m <> 4.
Proof.
  exists (mkApproxTableMetrics 2 5).
  split; [reflexivity|]. split; [reflexivity|]. discriminate.
Qed.

(** C4: [rows] is the count of the [tr] rows of the table whose first data
    cell has text that is not blank; the call succeeds with that count
    whenever the single table is found and every row has a data cell, and
    every successful call returns it.  On rows whose first cells are 1,
    blank and 4 it returns [rows = 2]. *)
Theorem rows_counts_nonblank_first_cells :
  (exists m, get_approx_table_metrics (table_of_grid example_grid) = Ok m
             /\ rows m = 2)
  /\ (exists m, get_approx_table_metrics (Tag "div" [table_of_grid example_grid])
                = Ok m
                /\ rows m = 2)
  /\ map first_cell_nonblank (find_all "tr" (table_of_grid example_grid))
     = [true; false; true]
  /\ (forall bs4_tag table,
        get_single_table bs4_tag = Ok table ->
        (forall row, In row (find_all "tr" table) -> find "td" row <> None) ->
        exists m,
          get_approx_table_metrics bs4_tag = Ok m
          /\ rows m
             = Z.of_nat (length (filter first_cell_nonblank (find_all "tr" table))))
  /\ (forall bs4_tag m,
        get_approx_table_metrics bs4_tag = Ok m ->
        exists table,
          get_single_table bs4_tag = Ok table
          /\ rows m
             = Z.of_nat (length (filter first_cell_nonblank (find_all "tr" table)))).
Proof.
  split; [eexists; split; reflexivity|].
  split; [eexists; split; reflexivity|]. split; [reflexivity|]. split.
  - intros bs4_tag table Ht Htd.
    unfold get_approx_table_metrics. rewrite Ht. cbn [bind].
    rewrite (count_rows_total _ Htd). cbn [bind].
    eexists. split; reflexivity.
  - intros bs4_tag m H.
    destruct (get_approx_table_metrics_ok_inv bs4_tag m H) as (table & Ht & Hr & _).
    exists table. split; [exact Ht|].
    pose proof (count_rows_total _ (count_rows_ok_inv _ _ Hr)) as Hc.
    rewrite Hr in Hc. now injection Hc.
Qed.

Lemma rows_counts_nonblank_first_cells_witness :
  get_single_table (Tag "div" [table_of_grid example_grid])
  = Ok (table_of_grid example_grid)
  /\ exists m,
       get_approx_table_metrics (Tag "div" [table_of_grid example_grid]) = Ok m
       /\ rows m
          = Z.of_nat (length (filter first_cell_nonblank
                                     (find_all "tr" (table_of_grid example_grid)))).
Proof.
  split; [reflexivity|].
  apply (proj1 (proj2 (proj2 (proj2 rows_counts_nonblank_first_cells)))
               (Tag "div" [table_of_grid example_grid])
               (table_of_grid example_grid)).
  - reflexivity.
  - intros row Hin.
    vm_compute in Hin.
    destruct Hin as [<-|[<-|[<-|[]]]]; discriminate.
Defined.

(** C5: without exactly one reachable table [get_approx_table_metrics]
    raises the typed error, "no table found" for none and "ambiguous table"
    for several, the two being distinct; it returns a metrics record only
    when exactly one table is reachable. *)
Theorem one_table_precondition (bs4_tag : PageElement) :
  (reachable_tables bs4_tag = [] ->
   get_approx_table_metrics bs4_tag
   = Raise (StructuralPreconditionError NoTableFound))
  /\ ((1 < length (reachable_tables bs4_tag))%nat ->
      get_approx_table_metrics bs4_tag
      = Raise (StructuralPreconditionError AmbiguousTable))
  /\ (forall m, get_approx_table_metrics bs4_tag = Ok m ->
                exists table, reachable_tables bs4_tag = [table])
  /\ StructuralPreconditionError NoTableFound
     <> StructuralPreconditionError AmbiguousTable.
Proof.
  unfold get_approx_table_metrics, get_single_table.
  repeat split.
  - intros ->. reflexivity.
  - intros Hlen.
    destruct (reachable_tables bs4_tag) as [|t [|t' ts]]; simpl in Hlen; try lia.
    reflexivity.
  - intros m H.
    destruct (reachable_tables bs4_tag) as [|t [|t' ts]]; try discriminate.
    now exists t.
  - discriminate.
Qed.

Lemma one_table_precondition_witness :
  (reachable_tables (Tag "div" []) = []
   /\ get_approx_table_metrics (Tag "div" [])
      = Raise (StructuralPreconditionError NoTableFound))
  /\ ((1 < length (reachable_tables (Tag "div" [Tag "table" []; Tag "table" []])))%nat
      /\ get_approx_table_metrics (Tag "div" [Tag "table" []; Tag "table" []])
         = Raise (StructuralPreconditionError AmbiguousTable))
  /\ (get_approx_table_metrics (table_of_grid example_grid)
      = Ok (mkApproxTableMetrics 2 5)
      /\ exists table, reachable_tables (table_of_grid example_grid) = [table]).
Proof.
  split; [|split].
  - split; [reflexivity|].
    apply (proj1 (one_table_precondition (Tag "div" []))). reflexivity.
  - split; [vm_compute; lia|].
    apply (proj1 (proj2 (one_table_precondition
                           (Tag "div" [Tag "table" []; Tag "table" []])))).
    vm_compute; lia.
  - split; [reflexivity|].
    apply (proj1 (proj2 (proj2 (one_table_precondition (table_of_grid example_grid))))
                 (mkApproxTableMetrics 2 5)).
    reflexivity.
Defined.

(** C8: when the single table has a [tr] row with no [td] below it, the
    call raises the attribute error of [None.text]; it neither returns a
    metrics record nor raises the typed precondition error. *)
Theorem row_without_td_raises (bs4_tag table row : PageElement) :
  get_single_table bs4_tag = Ok table ->
  In row (find_all "tr" table) ->
  find "td" row = None ->
  get_approx_table_metrics bs4_tag = Raise AttributeError
  /\ (forall m, get_approx_table_metrics bs4_tag <> Ok m)
  /\ (forall why, get_approx_table_metrics bs4_tag
                  <> Raise (StructuralPreconditionError why)).
Proof.
  intros Ht Hin Hnone.
  assert (H : get_approx_table_metrics bs4_tag = Raise AttributeError).
  { unfold get_approx_table_metrics. rewrite Ht. cbn [bind].
    now rewrite (count_rows_raises _ row Hin Hnone). }
  rewrite H. repeat split; intros; discriminate.
Qed.

Lemma row_without_td_raises_witness :
  get_single_table header_only_table = Ok header_only_table
  /\ In (Tag "tr" [Tag "th" [NavigableString (Py.lit "Year")]])
        (find_all "tr" header_only_table)
  /\ find "td" (Tag "tr" [Tag "th" [NavigableString (Py.lit "Year")]]) = None
  /\ get_approx_table_metrics header_only_table = Raise AttributeError.
Proof.
  assert (Hin : In (Tag "tr" [Tag "th" [NavigableString (Py.lit "Year")]])
                   (find_all "tr" header_only_table)) by (left; reflexivity).
  split; [reflexivity|]. split; [exact Hin|]. split; [reflexivity|].
  exact (proj1 (row_without_td_raises header_only_table header_only_table _
                  eq_refl Hin eq_refl)).
Defined.

(** ** Document nodes and table detection *)

Section NodeFacts.

Lemma PageElement_nested_ind (P : PageElement -> Prop) :
  (forall s, P (NavigableString s)) ->
  (forall name cs, Forall P cs -> P (Tag name cs)) ->
  forall e, P e.
Proof.
  intros Hs Ht. fix IH 1. intros [s|name cs]; [apply Hs|].
  apply Ht. induction cs as [|c cs IHcs]; constructor; [apply IH|exact IHcs].
Qed.

(** A unary tree is one where no node, from the root down, has more than
    one child. *)
Lemma is_unary_tree_iff (t : HtmlTag) :
  is_unary_tree t = true
  <-> Forall (fun n => (length (contents_of n) <= 1)%nat) (t :: descendants t).
Proof.
  induction t as [s|name cs IH] using PageElement_nested_ind.
  - simpl. split; [|reflexivity]. intros _. repeat constructor.
  - destruct cs as [|c [|c' cs]].
    + simpl. split; [|reflexivity]. intros _. repeat constructor.
    + inversion IH as [|? ? IHc _]; subst.
      cbn [is_unary_tree descendants flat_map]. rewrite app_nil_r.
      rewrite IHc. split.
      * intros H. constructor; [simpl; lia | exact H].
      * intros H. now inversion H.
    + split; [discriminate|].
      intros H. inversion H as [|? ? Hlen _]. simpl in Hlen. lia.
Qed.

Lemma contains_tag_self_iff (name : string) (t : HtmlTag) :
  contains_tag name true t = true
  <-> exists n, In n (t :: descendants t) /\ has_name name n = true.
Proof.
  unfold contains_tag. rewrite orb_true_iff, existsb_exists. simpl.
  split.
  - intros [H|(n & Hin & Hn)]; [exists t | exists n]; auto.
  - intros (n & [<-|Hin] & Hn); [left | right; exists n]; auto.
Qed.

End NodeFacts.

(** C3: the step is elementwise; an element whose node wrapper is a unary
    tree that contains a [table] tag, its own node counted, becomes a
    [TableElement] on the same node wrapper, and every other element is
    returned as it is.  The chain outer, inner, table is converted; outer
    over a table and a paragraph is not. *)
Theorem table_detection (Ctx : Type) (context : Ctx)
        (element : AbstractSemanticElement) :
  let out := TableParsingStep._transform_element Ctx element context in
  (is_unary_tree (html_tag element) = true
   /\ contains_tag "table" true (html_tag element) = true ->
   out = convert_from TableElement element
   /\ element_class out = TableElement
   /\ html_tag out = html_tag element)
  /\ (~ (is_unary_tree (html_tag element) = true
         /\ contains_tag "table" true (html_tag element) = true) ->
      out = element)
  /\ (Forall (fun n => (length (contents_of n) <= 1)%nat)
             (html_tag element :: descendants (html_tag element)) ->
      (exists n, In n (html_tag element :: descendants (html_tag element))
                 /\ has_name "table" n = true) ->
      element_class out = TableElement /\ html_tag out = html_tag element)
  /\ (forall elements i,
        nth_error (TableParsingStep.process Ctx elements context) i
        = option_map (fun e => TableParsingStep._transform_element Ctx e context)
                     (nth_error elements i))
  /\ (forall cls lvl,
        TableParsingStep._transform_element Ctx
          (mkElement cls chain_to_table lvl) context
        = mkElement TableElement chain_to_table None)
  /\ (forall cls lvl,
        TableParsingStep._transform_element Ctx
          (mkElement cls table_with_sibling lvl) context
        = mkElement cls table_with_sibling lvl).
Proof.
  cbv zeta. unfold TableParsingStep._transform_element.
  split; [|split; [|split; [|split; [|split]]]].
  - intros [-> ->]. simpl. auto.
  - intros Hn.
    destruct (is_unary_tree (html_tag element));
      destruct (contains_tag "table" true (html_tag element));
      simpl; try reflexivity.
    exfalso. apply Hn. auto.
  - intros Hchain Htable.
    apply is_unary_tree_iff in Hchain. apply contains_tag_self_iff in Htable.
    rewrite Hchain, Htable. simpl. auto.
  - intros elements i. unfold TableParsingStep.process. apply nth_error_map.
  - reflexivity.
  - reflexivity.
Qed.

Lemma table_detection_witness :
  (is_unary_tree chain_to_table = true
   /\ contains_tag "table" true chain_to_table = true)
  /\ TableParsingStep._transform_element unit
       (mkElement GenericElement chain_to_table None) tt
     = mkElement TableElement chain_to_table None
  /\ ~ (is_unary_tree table_with_sibling = true
        /\ contains_tag "table" true table_with_sibling = true)
  /\ TableParsingStep._transform_element unit
       (mkElement GenericElement table_with_sibling None) tt
     = mkElement GenericElement table_with_sibling None.
Proof.
  assert (Hyes : is_unary_tree chain_to_table = true
                 /\ contains_tag "table" true chain_to_table = true)
    by (split; reflexivity).
  assert (Hno : ~ (is_unary_tree table_with_sibling = true
                   /\ contains_tag "table" true table_with_sibling = true))
    by (intros [H _]; discriminate H).
  split; [exact Hyes|]. split.
  - exact (proj1 (proj1 (table_detection unit tt
                           (mkElement GenericElement chain_to_table None)) Hyes)).
  - split; [exact Hno|].
    exact (proj1 (proj2 (table_detection unit tt
                           (mkElement GenericElement table_with_sibling None)))
                 Hno).
Defined.

(** ** Rendering *)

Section RenderFacts.

Variable get_summary : AbstractSemanticElement -> Py.str.

Lemma TreeNode_nested_ind (P : TreeNode -> Prop) :
  (forall e cs, Forall P cs -> P (mkTreeNode e cs)) ->
  forall node, P node.
Proof.
  intros H. fix IH 1. intros [e cs]. apply H.
  induction cs as [|c cs IHcs]; constructor; [apply IH|exact IHcs].
Qed.

(** The inner loops of [loop_body] and [emitted_node] are a [flat_map]
    over the enumerated children. *)
Lemma each_flat_map {B : Type} (f : Z -> TreeNode -> list B)
      (j : Z) (nodes : list TreeNode) :
  (fix each (j : Z) (nodes : list TreeNode) : list B :=
     match nodes with
     | [] => []
     | child :: nodes' => f j child ++ each (j + 1) nodes'
     end) j nodes
  = flat_map (fun '(i, node) => f i node) (enumerate_from j nodes).
Proof.
  revert j. induction nodes as [|c nodes IH]; intros j; [reflexivity|].
  cbn [enumerate_from flat_map]. now rewrite <- IH.
Qed.

(** The turn of the loop, with its inner loop read as the recursive call
    of line 82. *)
Lemma loop_body_eq (pretty : option bool)
      (ignored_types : option (list ElementClass))
      (char_display_limit : option Z)
      (_prefix : Py.str) (_is_root : bool) (len_nodes i : Z)
      (element : AbstractSemanticElement) (node_children : list TreeNode)
      (root_nodes : list TreeNode) (_level : Z) :
  loop_body get_summary pretty ignored_types char_display_limit
            _prefix _is_root len_nodes i (mkTreeNode element node_children)
  = let pretty := pretty_or_default pretty in
    let ignored_types := ignored_types_or_default ignored_types in
    let char_display_limit := char_display_limit_or_default char_display_limit in
    if isinstance element ignored_types then []
    else
      let is_last := i =? len_nodes - 1 in
      let new_prefix := if negb is_last then PIPE else BLANK in
      [ line_of get_summary pretty char_display_limit _prefix _is_root is_last
                element;
        render get_summary (OfList root_nodes) (Some pretty) (Some ignored_types)
               (Some char_display_limit) (Some node_children) (_level + 1)
               (_prefix ++ (if _is_root then _prefix else new_prefix)) false ].
Proof.
  cbn [loop_body]. cbv zeta.
  destruct (isinstance element (ignored_types_or_default ignored_types));
    [reflexivity|].
  unfold render, tree_strings.
  now rewrite each_flat_map.
Qed.

Lemma pretty_or_default_idem (pretty : option bool) :
  pretty_or_default (Some (pretty_or_default pretty)) = pretty_or_default pretty.
Proof. reflexivity. Qed.

Lemma ignored_types_or_default_idem (ignored_types : option (list ElementClass)) :
  ignored_types_or_default (Some (ignored_types_or_default ignored_types))
  = ignored_types_or_default ignored_types.
Proof. destruct ignored_types as [[|c cs]|]; reflexivity. Qed.

Lemma char_display_limit_or_default_pos (char_display_limit : option Z) :
  0 < char_display_limit_or_default char_display_limit.
Proof.
  unfold char_display_limit_or_default, DEFAULT_CHAR_DISPLAY_LIMIT.
  destruct char_display_limit as [n|]; [|lia].
  destruct (n =? 0) eqn:E0; destruct (n >? 0) eqn:E1; simpl; lia.
Qed.

Lemma char_display_limit_or_default_idem (char_display_limit : option Z) :
  char_display_limit_or_default
    (Some (char_display_limit_or_default char_display_limit))
  = char_display_limit_or_default char_display_limit.
Proof.
  pose proof (char_display_limit_or_default_pos char_display_limit) as Hpos.
  set (n := char_display_limit_or_default char_display_limit) in *.
  unfold char_display_limit_or_default at 1.
  destruct (n =? 0) eqn:E0; destruct (n >? 0) eqn:E1; simpl; lia.
Qed.

(** Only the effective limit matters. *)
Lemma loop_body_limit (limit1 limit2 : option Z) :
  char_display_limit_or_default limit1 = char_display_limit_or_default limit2 ->
  forall pretty ignored_types _prefix _is_root len_nodes i node,
    loop_body get_summary pretty ignored_types limit1
              _prefix _is_root len_nodes i node
    = loop_body get_summary pretty ignored_types limit2
                _prefix _is_root len_nodes i node.
Proof.
  intros H pretty ignored_types _prefix _is_root len_nodes i [element cs].
  rewrite !(loop_body_eq _ _ _ _ _ _ _ _ _ [] 0). cbv zeta.
  now rewrite H.
Qed.

End RenderFacts.

(** C10: with [char_display_limit] [None], zero or negative, [render]
    returns what it returns with the default limit of 50. *)
Theorem nonpositive_limit_is_default
        (get_summary : AbstractSemanticElement -> Py.str)
        (tree : RenderInput) (pretty : option bool)
        (ignored_types : option (list ElementClass))
        (char_display_limit : option Z)
        (_nodes : option (list TreeNode))
        (_level : Z) (_prefix : Py.str) (_is_root : bool) :
  char_display_limit = None
  \/ (exists n, char_display_limit = Some n /\ n <= 0) ->
  DEFAULT_CHAR_DISPLAY_LIMIT = 50
  /\ render get_summary tree pretty ignored_types char_display_limit
            _nodes _level _prefix _is_root
     = render get_summary tree pretty ignored_types
              (Some DEFAULT_CHAR_DISPLAY_LIMIT)
              _nodes _level _prefix _is_root.
Proof.
  intros H. split; [reflexivity|].
  assert (Heff : char_display_limit_or_default char_display_limit
                 = char_display_limit_or_default (Some DEFAULT_CHAR_DISPLAY_LIMIT)).
  { destruct H as [->|(n & -> & Hn)]; [reflexivity|].
    unfold char_display_limit_or_default.
    destruct (n =? 0) eqn:E0; destruct (n >? 0) eqn:E1; simpl; try reflexivity.
    lia. }
  unfold render, tree_strings. do 2 f_equal.
  apply flat_map_ext. intros [i node].
  now apply loop_body_limit.
Qed.

Lemma nonpositive_limit_is_default_witness :
  (Some (-7) = None \/ (exists n, Some (-7) = Some n /\ n <= 0))
  /\ render text_summary (OfNode hidden_child) None None (Some (-7)) None 0 [] true
     = render text_summary (OfNode hidden_child) None None
              (Some DEFAULT_CHAR_DISPLAY_LIMIT) None 0 [] true.
Proof.
  assert (H : Some (-7) = None \/ (exists n, Some (-7) = Some n /\ n <= 0))
    by (right; exists (-7); split; [reflexivity|lia]).
  split; [exact H|].
  exact (proj2 (nonpositive_limit_is_default text_summary (OfNode hidden_child)
                  None None (Some (-7)) None 0 [] true H)).
Defined.

(** ** Truncation of the summary *)

Section TruncationFacts.

Lemma slice_to_prefix (s : Py.str) (h : Z) :
  0 <= h <= Z.of_nat (length s) ->
  Py.slice_to s h = firstn (Z.to_nat h) s.
Proof.
  intros Hh. unfold Py.slice_to.
  destruct (h <? 0) eqn:E; [lia|].
  now rewrite Z.min_l by lia.
Qed.

Lemma slice_from_suffix (s : Py.str) (h : Z) :
  0 < h <= Z.of_nat (length s) ->
  Py.slice_from s (- h) = skipn (length s - Z.to_nat h) s.
Proof.
  intros Hh. unfold Py.slice_from.
  destruct (- h <? 0) eqn:E; [|lia].
  rewrite Z.max_r by lia. f_equal. lia.
Qed.

(** A summary within the limit is displayed whole. *)
Lemma truncate_short (limit : Z) (contents : Py.str) :
  Z.of_nat (length contents) <= limit ->
  truncate limit contents = contents.
Proof.
  intros H. unfold truncate.
  destruct (Z.of_nat (length contents) >? limit) eqn:E; [lia|reflexivity].
Qed.

(** Over the limit, and for a limit of at least five, the summary is
    displayed as its first and last [(limit - 3) // 2] characters around
    three dots. *)
Lemma truncate_long (limit : Z) (contents : Py.str) :
  5 <= limit ->
  limit < Z.of_nat (length contents) ->
  let half := Z.to_nat ((limit - 3) / 2) in
  truncate limit contents
  = firstn half contents ++ Py.lit "..." ++ skipn (length contents - half) contents
  /\ length (truncate limit contents) = (half + 3 + half)%nat
  /\ Z.of_nat (half + 3 + half) <= limit.
Proof.
  intros H5 Hlong half.
  assert (Hhalf : 1 <= (limit - 3) / 2) by (apply Z.div_le_lower_bound; lia).
  assert (Hfit : 2 * ((limit - 3) / 2) <= limit - 3)
    by (apply Z.mul_div_le; lia).
  assert (Heq : truncate limit contents
                = firstn half contents ++ Py.lit "..."
                         ++ skipn (length contents - half) contents).
  { unfold truncate.
    destruct (Z.of_nat (length contents) >? limit) eqn:E; [|lia].
    cbv zeta. rewrite slice_to_prefix, slice_from_suffix by lia. reflexivity. }
  split; [exact Heq|]. split; [|subst half; lia].
  rewrite Heq, !length_app, length_firstn, length_skipn.
  change (length (Py.lit "...")) with 3%nat. subst half. lia.
Qed.

(** For a limit of at least five the displayed summary fits the limit. *)
Lemma truncate_fits (limit : Z) (contents : Py.str) :
  5 <= limit ->
  Z.of_nat (length (truncate limit contents)) <= limit.
Proof.
  intros H5.
  destruct (Z_le_gt_dec (Z.of_nat (length contents)) limit) as [Hs|Hl].
  - now rewrite truncate_short.
  - destruct (truncate_long limit contents H5 ltac:(lia)) as (_ & -> & Hle).
    exact Hle.
Qed.

(** So does what [render] shows of any summary. *)
Lemma displayed_summary_fits
      (get_summary : AbstractSemanticElement -> Py.str)
      (limit : Z) (element : AbstractSemanticElement) :
  5 <= limit ->
  Z.of_nat (length (displayed_summary get_summary limit element)) <= limit.
Proof. intros H5. now apply truncate_fits. Qed.

End TruncationFacts.

(** C2, as the code has it: a summary whose stripped text has length 80 is
    displayed under a limit of 50 as 49 characters, the first 23 and the
    last 23 characters of the stripped text around three dots; the line of
    the element ends with it. *)
Theorem truncation_of_80_under_50
        (get_summary : AbstractSemanticElement -> Py.str)
        (element : AbstractSemanticElement) :
  length (Py.strip (get_summary element)) = 80%nat ->
  let contents := Py.strip (get_summary element) in
  let displayed := displayed_summary get_summary 50 element in
  displayed = firstn 23 contents ++ Py.lit "..." ++ skipn 57 contents
  /\ length (firstn 23 contents) = 23%nat
  /\ length (skipn 57 contents) = 23%nat
  /\ length displayed = 49%nat
  /\ forall pretty _prefix _is_root is_last,
       exists head,
         line_of get_summary pretty 50 _prefix _is_root is_last element
         = head ++ Py.lit ": " ++ displayed.
Proof.
  intros Hlen contents displayed. subst displayed.
  destruct (truncate_long 50 contents ltac:(lia) ltac:(fold contents in Hlen; lia))
    as (Heq & Hl & _).
  change (Z.to_nat ((50 - 3) / 2)) with 23%nat in Heq, Hl.
  fold contents in Hlen. rewrite Hlen in Heq.
  change (80 - 23)%nat with 57%nat in Heq.
  change (truncate 50 contents) with (displayed_summary get_summary 50 element)
    in Heq, Hl.
  split; [exact Heq|].
  split; [rewrite length_firstn; lia|].
  split; [rewrite length_skipn; lia|].
  split; [exact Hl|].
  intros pretty _prefix _is_root is_last.
  unfold line_of. cbv zeta.
  destruct (displayed_summary get_summary 50 element) as [|c rest];
    [discriminate Hl|].
  cbn [Py.truthy]. eexists. reflexivity.
Qed.

Lemma truncation_of_80_under_50_witness :
  length (Py.strip (text_summary (semantic_element (leaf TextElement eighty))))
  = 80%nat
  /\ length (displayed_summary text_summary 50
               (semantic_element (leaf TextElement eighty))) = 49%nat.
Proof.
  split; [reflexivity|].
  exact (proj1 (proj2 (proj2 (proj2
           (truncation_of_80_under_50 text_summary
              (semantic_element (leaf TextElement eighty)) eq_refl))))).
Defined.

(** C2 as stated fails: a summary of 80 characters under a limit of 50 is
    displayed with 49 characters and a suffix of 23, not 50 and 24. *)
Lemma displayed_80_under_50_is_49 :
  length (text_summary (semantic_element (leaf TextElement eighty))) = 80%nat
  /\ render_top text_summary (OfNode (leaf TextElement eighty))
                (Some false) None (Some 50)
     = Py.lit "TextElement: " ++ firstn 23 eighty ++ Py.lit "..." ++ skipn 57 eighty
  /\ displayed_summary text_summary 50 (semantic_element (leaf TextElement eighty))
     = firstn 23 eighty ++ Py.lit "..." ++ skipn 57 eighty
  /\ length (skipn 57 eighty) <> 24%nat
  /\ length (displayed_summary text_summary 50
               (semantic_element (leaf TextElement eighty))) <> 50%nat.
Proof.
  split; [reflexivity|]. split; [vm_compute; reflexivity|].
  split; [vm_compute; reflexivity|].
  split; vm_compute; intros H; discriminate H.
Qed.

(** C7 fails on the code for limits under five: with a limit of 3 the
    summary "abcd" is displayed as "...abcd", seven characters, since
    [contents[-0:]] is the whole text. *)
Theorem tiny_limit_overflows :
  render_top text_summary (OfNode (leaf TextElement (Py.lit "abcd")))
             (Some false) None (Some 3)
  = Py.lit "TextElement: ...abcd"
  /\ char_display_limit_or_default (Some 3) = 3
  /\ displayed_summary text_summary 3
       (semantic_element (leaf TextElement (Py.lit "abcd")))
     = Py.lit "...abcd"
  /\ 3 < Z.of_nat (length (displayed_summary text_summary 3
                             (semantic_element (leaf TextElement (Py.lit "abcd"))))).
Proof.
  repeat split.
Qed.

(** ** What [render] prints, node by node *)

Section JoinFacts.

Variable sep : Py.str.

Lemma join_cons (p : Py.str) (rest : list Py.str) :
  rest <> [] -> Py.join sep (p :: rest) = p ++ sep ++ Py.join sep rest.
Proof. destruct rest; [congruence|reflexivity]. Qed.

Lemma join_app (xs ys : list Py.str) :
  xs <> [] -> ys <> [] ->
  Py.join sep (xs ++ ys) = Py.join sep xs ++ sep ++ Py.join sep ys.
Proof.
  intros Hx Hy. induction xs as [|x xs IH]; [congruence|].
  destruct xs as [|x' xs].
  - simpl app. now rewrite join_cons.
  - change ((x :: x' :: xs) ++ ys) with (x :: ((x' :: xs) ++ ys)).
    rewrite !join_cons by (try discriminate; destruct ys; discriminate || congruence).
    rewrite IH by discriminate. now rewrite <- !app_assoc.
Qed.

Lemma truthy_join (xs : list Py.str) :
  Forall (fun x => Py.truthy x = true) xs -> xs <> [] ->
  Py.truthy (Py.join sep xs) = true.
Proof.
  intros Hall Hne. destruct xs as [|x xs]; [congruence|].
  inversion Hall as [|? ? Hx _]; subst.
  destruct x as [|c x]; [discriminate|].
  destruct xs; reflexivity.
Qed.

Lemma same_text_refl (xs : list Py.str) : Py.same_text sep xs xs.
Proof. split; [tauto|reflexivity]. Qed.

Lemma same_text_trans (xs ys zs : list Py.str) :
  Py.same_text sep xs ys -> Py.same_text sep ys zs -> Py.same_text sep xs zs.
Proof. intros [E1 J1] [E2 J2]. split; [tauto|congruence]. Qed.

Lemma same_text_app (xs ys xs' ys' : list Py.str) :
  Py.same_text sep xs xs' -> Py.same_text sep ys ys' -> Py.same_text sep (xs ++ ys) (xs' ++ ys').
Proof.
  intros [Ex Jx] [Ey Jy]. split.
  - split; intros H; apply app_eq_nil in H; destruct H as [H1 H2];
      apply Ex in H1; apply Ey in H2; now subst.
  - destruct xs as [|x xs].
    + assert (xs' = []) as -> by now apply Ex. exact Jy.
    + destruct ys as [|y ys].
      * assert (ys' = []) as -> by now apply Ey.
        now rewrite !app_nil_r.
      * assert (xs' <> []) by (intros E; apply Ex in E; discriminate).
        assert (ys' <> []) by (intros E; apply Ey in E; discriminate).
        rewrite !join_app by (assumption || discriminate). congruence.
Qed.

(** [filter(None, ...)] keeps a joined block when it has a line. *)
Lemma same_text_joined (xs : list Py.str) :
  Forall (fun x => Py.truthy x = true) xs ->
  Py.same_text sep (filter Py.truthy [Py.join sep xs]) xs.
Proof.
  intros Hall. destruct xs as [|x xs].
  - split; [tauto|reflexivity].
  - cbn [filter]. rewrite (truthy_join _ Hall) by discriminate.
    split; [split; discriminate|reflexivity].
Qed.

Lemma Forall_truthy_filter (xs : list Py.str) :
  Forall (fun x => Py.truthy x = true) (filter Py.truthy xs).
Proof. apply Forall_forall. intros x Hx. now apply filter_In in Hx. Qed.

End JoinFacts.

Section EmittedFacts.

Variable get_summary : AbstractSemanticElement -> Py.str.

Lemma emitted_node_eq (pretty : bool) (ignored_types : list ElementClass)
      (char_display_limit : Z) (_prefix : Py.str) (_is_root : bool)
      (len_nodes i : Z) (element : AbstractSemanticElement)
      (node_children : list TreeNode) :
  emitted_node get_summary pretty ignored_types char_display_limit
               _prefix _is_root len_nodes i (mkTreeNode element node_children)
  = if isinstance element ignored_types then []
    else
      let is_last := i =? len_nodes - 1 in
      let new_prefix := if negb is_last then PIPE else BLANK in
      (mkTreeNode element node_children,
       line_of get_summary pretty char_display_limit _prefix _is_root is_last
               element)
        :: emitted get_summary pretty ignored_types char_display_limit
                   (_prefix ++ (if _is_root then _prefix else new_prefix)) false
                   node_children.
Proof.
  cbn [emitted_node].
  destruct (isinstance element ignored_types); [reflexivity|].
  cbv zeta. unfold emitted. now rewrite each_flat_map.
Qed.

(** The strings of a loop and the lines of the nodes it visits give the
    same text. *)
Lemma loop_same_text (len_nodes : Z) (nodes : list TreeNode) :
  Forall
    (fun node =>
       forall pretty ignored_types char_display_limit _prefix _is_root len i,
         Py.same_text NEWLINE
           (filter Py.truthy
              (loop_body get_summary pretty ignored_types char_display_limit
                         _prefix _is_root len i node))
           (lines
              (emitted_node get_summary (pretty_or_default pretty)
                 (ignored_types_or_default ignored_types)
                 (char_display_limit_or_default char_display_limit)
                 _prefix _is_root len i node)))
    nodes ->
  forall pretty ignored_types char_display_limit _prefix _is_root j,
    Py.same_text NEWLINE
      (filter Py.truthy
         (flat_map
            (fun '(i, node) =>
               loop_body get_summary pretty ignored_types char_display_limit
                         _prefix _is_root len_nodes i node)
            (enumerate_from j nodes)))
      (lines
         (flat_map
            (fun '(i, node) =>
               emitted_node get_summary (pretty_or_default pretty)
                 (ignored_types_or_default ignored_types)
                 (char_display_limit_or_default char_display_limit)
                 _prefix _is_root len_nodes i node)
            (enumerate_from j nodes))).
Proof.
  intros Hall pretty ignored_types char_display_limit _prefix _is_root.
  induction Hall as [|node nodes Hnode _ IH]; intros j.
  - apply same_text_refl.
  - cbn [enumerate_from flat_map]. unfold lines in *.
    rewrite map_app, !filter_app.
    apply same_text_app; [apply Hnode | apply IH].
Qed.

Lemma node_same_text (node : TreeNode) :
  forall pretty ignored_types char_display_limit _prefix _is_root len i,
    Py.same_text NEWLINE
      (filter Py.truthy
         (loop_body get_summary pretty ignored_types char_display_limit
                    _prefix _is_root len i node))
      (lines
         (emitted_node get_summary (pretty_or_default pretty)
            (ignored_types_or_default ignored_types)
            (char_display_limit_or_default char_display_limit)
            _prefix _is_root len i node)).
Proof.
  induction node as [element cs IH] using TreeNode_nested_ind.
  intros pretty ignored_types char_display_limit _prefix _is_root len i.
  rewrite (loop_body_eq _ _ _ _ _ _ _ _ _ _ [] 0), emitted_node_eq. cbv zeta.
  destruct (isinstance element (ignored_types_or_default ignored_types));
    [apply same_text_refl|].
  set (line := line_of _ _ _ _ _ _ _).
  set (sub_prefix := _prefix ++ _).
  unfold lines. cbn [map snd].
  change [line; ?x] with ([line] ++ [x]).
  change (line :: ?xs) with ([line] ++ xs) at 2.
  rewrite !filter_app.
  apply same_text_app; [apply same_text_refl|].
  unfold render, tree_strings.
  eapply same_text_trans;
    [apply same_text_joined, Forall_truthy_filter|].
  pose proof (loop_same_text (Z.of_nat (length cs)) cs IH
                (Some (pretty_or_default pretty))
                (Some (ignored_types_or_default ignored_types))
                (Some (char_display_limit_or_default char_display_limit))
                sub_prefix false 0) as H.
  rewrite pretty_or_default_idem, ignored_types_or_default_idem,
    char_display_limit_or_default_idem in H.
  exact H.
Qed.

(** The output of [render] is the lines of the visited nodes, one after
    the other. *)
Lemma render_top_emitted (tree : RenderInput) (pretty : option bool)
      (ignored_types : option (list ElementClass))
      (char_display_limit : option Z) :
  render_top get_summary tree pretty ignored_types char_display_limit
  = Py.join NEWLINE
      (lines
         (emitted get_summary (pretty_or_default pretty)
            (ignored_types_or_default ignored_types)
            (char_display_limit_or_default char_display_limit)
            [] true (root_nodes tree))).
Proof.
  unfold render_top, render, tree_strings, emitted.
  change (match tree with
          | OfNode node => [node]
          | OfTree t => list_of_tree t
          | OfList nodes => nodes
          end) with (root_nodes tree).
  apply loop_same_text.
  apply Forall_forall. intros node _. apply node_same_text.
Qed.

(** No visited node is of an ignored class. *)
Lemma emitted_node_not_ignored (pretty : bool)
      (ignored_types : list ElementClass) (char_display_limit : Z)
      (node : TreeNode) :
  forall _prefix _is_root len i,
    Forall (fun entry => isinstance (semantic_element (fst entry)) ignored_types
                         = false)
           (emitted_node get_summary pretty ignored_types char_display_limit
                         _prefix _is_root len i node).
Proof.
  induction node as [element cs IH] using TreeNode_nested_ind.
  intros _prefix _is_root len i. rewrite emitted_node_eq.
  destruct (isinstance element ignored_types) eqn:E; [constructor|].
  cbv zeta. constructor; [exact E|].
  unfold emitted. generalize (Z.of_nat (length cs)) as sub_len.
  generalize 0 as j.
  induction IH as [|c cs Hc _ IHcs]; intros j sub_len; [constructor|].
  cbn [enumerate_from flat_map]. apply Forall_app. split; [apply Hc|apply IHcs].
Qed.

Lemma emitted_not_ignored (pretty : bool)
      (ignored_types : list ElementClass) (char_display_limit : Z)
      (_prefix : Py.str) (_is_root : bool) (nodes : list TreeNode) :
  Forall (fun entry => isinstance (semantic_element (fst entry)) ignored_types
                       = false)
         (emitted get_summary pretty ignored_types char_display_limit
                  _prefix _is_root nodes).
Proof.
  unfold emitted. generalize (Z.of_nat (length nodes)) as len. generalize 0 as j.
  induction nodes as [|c cs IH]; intros j len; [constructor|].
  cbn [enumerate_from flat_map]. apply Forall_app.
  split; [apply emitted_node_not_ignored | apply IH].
Qed.

End EmittedFacts.

Section PruneFacts.

Variable get_summary : AbstractSemanticElement -> Py.str.

(** Every entry pairs a node with the line built from its element. *)
Lemma emitted_node_lines (pretty : bool)
      (ignored_types : list ElementClass) (char_display_limit : Z)
      (node : TreeNode) :
  forall _prefix _is_root len i,
    Forall (fun entry =>
              exists prefix is_root is_last,
                snd entry
                = line_of get_summary pretty char_display_limit
                          prefix is_root is_last (semantic_element (fst entry)))
           (emitted_node get_summary pretty ignored_types char_display_limit
                         _prefix _is_root len i node).
Proof.
  induction node as [element cs IH] using TreeNode_nested_ind.
  intros _prefix _is_root len i. rewrite emitted_node_eq.
  destruct (isinstance element ignored_types) eqn:E; [constructor|].
  cbv zeta. constructor; [simpl; eauto|].
  unfold emitted. generalize (Z.of_nat (length cs)) as sub_len.
  generalize 0 as j.
  induction IH as [|c cs Hc _ IHcs]; intros j sub_len; [constructor|].
  cbn [enumerate_from flat_map]. apply Forall_app. split; [apply Hc|apply IHcs].
Qed.

Lemma emitted_lines (pretty : bool)
      (ignored_types : list ElementClass) (char_display_limit : Z)
      (_prefix : Py.str) (_is_root : bool) (nodes : list TreeNode) :
  Forall (fun entry =>
            exists prefix is_root is_last,
              snd entry
              = line_of get_summary pretty char_display_limit
                        prefix is_root is_last (semantic_element (fst entry)))
         (emitted get_summary pretty ignored_types char_display_limit
                  _prefix _is_root nodes).
Proof.
  unfold emitted. generalize (Z.of_nat (length nodes)) as len. generalize 0 as j.
  induction nodes as [|c cs IH]; intros j len; [constructor|].
  cbn [enumerate_from flat_map]. apply Forall_app.
  split; [apply emitted_node_lines | apply IH].
Qed.

(** The turn of the loop at an ignored node appends nothing. *)
Lemma loop_body_ignored (pretty : option bool)
      (ignored_types : option (list ElementClass))
      (char_display_limit : option Z)
      (_prefix : Py.str) (_is_root : bool) (len i : Z) (node : TreeNode) :
  isinstance (semantic_element node) (ignored_types_or_default ignored_types)
  = true ->
  loop_body get_summary pretty ignored_types char_display_limit
            _prefix _is_root len i node = [].
Proof.
  destruct node as [element cs]. cbn [semantic_element]. intros H.
  rewrite (loop_body_eq _ _ _ _ _ _ _ _ _ _ [] 0). cbv zeta. now rewrite H.
Qed.

Lemma enumerate_prune_ext (f : Z -> TreeNode -> list Py.str)
      (ignored_types : list ElementClass) (nodes : list TreeNode) :
  Forall (fun node => forall i, f i (prune ignored_types node) = f i node) nodes ->
  forall j,
    flat_map (fun '(i, node) => f i node)
             (enumerate_from j (map (prune ignored_types) nodes))
    = flat_map (fun '(i, node) => f i node) (enumerate_from j nodes).
Proof.
  induction 1 as [|c cs Hc _ IH]; intros j; [reflexivity|].
  cbn [map enumerate_from flat_map]. now rewrite Hc, IH.
Qed.

(** The children of ignored nodes do not reach the output of the loop. *)
Lemma loop_body_prune (node : TreeNode) :
  forall pretty ignored_types char_display_limit _prefix _is_root len i,
    loop_body get_summary pretty ignored_types char_display_limit
              _prefix _is_root len i
              (prune (ignored_types_or_default ignored_types) node)
    = loop_body get_summary pretty ignored_types char_display_limit
                _prefix _is_root len i node.
Proof.
  induction node as [element cs IH] using TreeNode_nested_ind.
  intros pretty ignored_types char_display_limit _prefix _is_root len i.
  cbn [prune].
  destruct (isinstance element (ignored_types_or_default ignored_types)) eqn:E.
  - rewrite !loop_body_ignored by exact E. reflexivity.
  - rewrite !(loop_body_eq _ _ _ _ _ _ _ _ _ _ [] 0). cbv zeta. rewrite E.
    do 2 f_equal. unfold render, tree_strings. rewrite length_map.
    do 2 f_equal.
    apply (enumerate_prune_ext
             (fun i node =>
                loop_body get_summary (Some (pretty_or_default pretty))
                  (Some (ignored_types_or_default ignored_types))
                  (Some (char_display_limit_or_default char_display_limit))
                  _ false (Z.of_nat (length cs)) i node)).
    eapply Forall_impl; [|exact IH].
    intros c Hc j.
    specialize (Hc (Some (pretty_or_default pretty))
                   (Some (ignored_types_or_default ignored_types))
                   (Some (char_display_limit_or_default char_display_limit))).
    rewrite ignored_types_or_default_idem in Hc. apply Hc.
Qed.

Lemma render_top_prune (tree : RenderInput) (pretty : option bool)
      (ignored_types : option (list ElementClass))
      (char_display_limit : option Z) :
  render_top get_summary
             (prune_input (ignored_types_or_default ignored_types) tree)
             pretty ignored_types char_display_limit
  = render_top get_summary tree pretty ignored_types char_display_limit.
Proof.
  unfold render_top, render, tree_strings.
  set (ignored := ignored_types_or_default ignored_types).
  assert (Hroots : match prune_input ignored tree with
                   | OfNode node => [node]
                   | OfTree t => list_of_tree t
                   | OfList nodes => nodes
                   end
                   = map (prune ignored)
                         match tree with
                         | OfNode node => [node]
                         | OfTree t => list_of_tree t
                         | OfList nodes => nodes
                         end)
    by (destruct tree; reflexivity).
  rewrite Hroots, length_map. do 2 f_equal.
  apply (enumerate_prune_ext
           (fun i node =>
              loop_body get_summary pretty ignored_types char_display_limit
                        [] true _ i node)).
  apply Forall_forall. intros node _ i. apply loop_body_prune.
Qed.

End PruneFacts.

(** C6: the output of [render] is made of the lines of the nodes it visits,
    each built from the element of its node, and no visited node is of an
    ignored class, the classes being [IrrelevantElement] alone by default;
    the turn of the loop at an ignored node appends nothing. *)
Theorem ignored_nodes_have_no_line
        (get_summary : AbstractSemanticElement -> Py.str)
        (tree : RenderInput) (pretty : option bool)
        (ignored_types : option (list ElementClass))
        (char_display_limit : option Z) :
  let ignored := ignored_types_or_default ignored_types in
  let limit := char_display_limit_or_default char_display_limit in
  let visited :=
    emitted get_summary (pretty_or_default pretty) ignored limit
            [] true (root_nodes tree) in
  render_top get_summary tree pretty ignored_types char_display_limit
  = Py.join NEWLINE (filter Py.truthy (map snd visited))
  /\ Forall (fun entry =>
               isinstance (semantic_element (fst entry)) ignored = false
               /\ exists prefix is_root is_last,
                    snd entry
                    = line_of get_summary (pretty_or_default pretty) limit
                              prefix is_root is_last
                              (semantic_element (fst entry)))
            visited
  /\ ignored_types_or_default None = [IrrelevantElement]
  /\ forall _prefix _is_root len i node,
       isinstance (semantic_element node) ignored = true ->
       loop_body get_summary pretty ignored_types char_display_limit
                 _prefix _is_root len i node = [].
Proof.
  cbv zeta. split; [apply render_top_emitted|]. split; [|split; [reflexivity|]].
  - apply Forall_forall. intros entry Hin. split.
    + pose proof (emitted_not_ignored get_summary (pretty_or_default pretty)
                    (ignored_types_or_default ignored_types)
                    (char_display_limit_or_default char_display_limit)
                    [] true (root_nodes tree)) as H.
      rewrite Forall_forall in H. now apply H.
    + pose proof (emitted_lines get_summary (pretty_or_default pretty)
                    (ignored_types_or_default ignored_types)
                    (char_display_limit_or_default char_display_limit)
                    [] true (root_nodes tree)) as H.
      rewrite Forall_forall in H. now apply H.
  - intros. now apply loop_body_ignored.
Qed.

Lemma ignored_nodes_have_no_line_witness :
  isinstance
    (semantic_element (leaf IrrelevantElement (Py.lit "skip")))
    (ignored_types_or_default None) = true
  /\ loop_body text_summary None None None [] true 1 0
               (leaf IrrelevantElement (Py.lit "skip")) = [].
Proof.
  split; [reflexivity|].
  exact (proj2 (proj2 (proj2
           (ignored_nodes_have_no_line text_summary
              (OfNode (leaf IrrelevantElement (Py.lit "skip"))) None None None)))
           [] true 1 0 (leaf IrrelevantElement (Py.lit "skip")) eq_refl).
Defined.

(** C9: at a node of an ignored class the loop goes on to the next node
    without the recursive call, so nothing is appended for the node or for
    anything below it: the output is that of the tree with the children of
    ignored nodes removed.  Under a title, the text child of an irrelevant
    node is not printed and is not moved up to the title. *)
Theorem ignored_subtree_is_skipped
        (get_summary : AbstractSemanticElement -> Py.str)
        (pretty : option bool) (ignored_types : option (list ElementClass))
        (char_display_limit : option Z)
        (element : AbstractSemanticElement) :
  isinstance element (ignored_types_or_default ignored_types) = true ->
  (forall node_children _prefix _is_root len i,
     loop_body get_summary pretty ignored_types char_display_limit
               _prefix _is_root len i (mkTreeNode element node_children) = [])
  /\ (forall before after node_children,
        render_top get_summary
                   (OfList (before ++ mkTreeNode element node_children :: after))
                   pretty ignored_types char_display_limit
        = render_top get_summary
                     (OfList (before ++ mkTreeNode element [] :: after))
                     pretty ignored_types char_display_limit)
  /\ (forall tree,
        render_top get_summary
                   (prune_input (ignored_types_or_default ignored_types) tree)
                   pretty ignored_types char_display_limit
        = render_top get_summary tree pretty ignored_types char_display_limit)
  /\ render_top text_summary (OfNode hidden_child) (Some false) None None
     = Py.lit "TitleElement[L1]: Top" ++ NEWLINE
       ++ CORNER ++ Py.lit "TextElement: after".
Proof.
  intros Hignored. split; [|split; [|split]].
  - intros. now apply loop_body_ignored.
  - intros before after node_children.
    unfold render_top, render, tree_strings. rewrite !length_app. cbn [length].
    do 2 f_equal. generalize 0 as j.
    generalize (Z.of_nat (length before + S (length after))) as len.
    induction before as [|b before IH]; intros len j.
    + cbn [app enumerate_from flat_map].
      rewrite !loop_body_ignored by exact Hignored. reflexivity.
    + cbn [app enumerate_from flat_map]. now rewrite IH.
  - intros tree. apply render_top_prune.
  - vm_compute. reflexivity.
Qed.

Lemma ignored_subtree_is_skipped_witness :
  isinstance (mkElement IrrelevantElement (NavigableString (Py.lit "skip")) None)
             (ignored_types_or_default None) = true
  /\ loop_body text_summary (Some false) None None [] false 2 0
       (mkTreeNode
          (mkElement IrrelevantElement (NavigableString (Py.lit "skip")) None)
          [leaf TextElement (Py.lit "inner")]) = [].
Proof.
  split; [reflexivity|].
  exact (proj1 (ignored_subtree_is_skipped text_summary (Some false) None None
                  (mkElement IrrelevantElement (NavigableString (Py.lit "skip")) None)
                  eq_refl)
               [leaf TextElement (Py.lit "inner")] [] false 2 0).
Defined.

(** * Further properties *)

(** ** Rendering: arguments, roots and empty output *)

Section RenderArguments.

Variable get_summary : AbstractSemanticElement -> Py.str.

(** Only the effective values of the three optional arguments matter. *)
Lemma loop_body_effective (pretty1 pretty2 : option bool)
      (ignored1 ignored2 : option (list ElementClass))
      (limit1 limit2 : option Z) :
  pretty_or_default pretty1 = pretty_or_default pretty2 ->
  ignored_types_or_default ignored1 = ignored_types_or_default ignored2 ->
  char_display_limit_or_default limit1 = char_display_limit_or_default limit2 ->
  forall _prefix _is_root len_nodes i node,
    loop_body get_summary pretty1 ignored1 limit1 _prefix _is_root len_nodes i node
    = loop_body get_summary pretty2 ignored2 limit2 _prefix _is_root len_nodes i node.
Proof.
  intros Hp Hi Hl _prefix _is_root len_nodes i [element cs].
  rewrite !(loop_body_eq _ _ _ _ _ _ _ _ _ _ [] 0). cbv zeta.
  now rewrite Hp, Hi, Hl.
Qed.

Lemma render_effective (pretty1 pretty2 : option bool)
      (ignored1 ignored2 : option (list ElementClass))
      (limit1 limit2 : option Z) :
  pretty_or_default pretty1 = pretty_or_default pretty2 ->
  ignored_types_or_default ignored1 = ignored_types_or_default ignored2 ->
  char_display_limit_or_default limit1 = char_display_limit_or_default limit2 ->
  forall tree _nodes _level _prefix _is_root,
    render get_summary tree pretty1 ignored1 limit1 _nodes _level _prefix _is_root
    = render get_summary tree pretty2 ignored2 limit2 _nodes _level _prefix _is_root.
Proof.
  intros Hp Hi Hl tree _nodes _level _prefix _is_root.
  unfold render, tree_strings. do 2 f_equal.
  apply flat_map_ext. intros [i node]. now apply loop_body_effective.
Qed.

(** At the root the position of a node among its siblings is not used. *)
Lemma loop_body_root (pretty : option bool)
      (ignored_types : option (list ElementClass))
      (char_display_limit : option Z) (_prefix : Py.str)
      (len1 i1 len2 i2 : Z) (node : TreeNode) :
  loop_body get_summary pretty ignored_types char_display_limit
            _prefix true len1 i1 node
  = loop_body get_summary pretty ignored_types char_display_limit
              _prefix true len2 i2 node.
Proof.
  destruct node as [element cs].
  rewrite !(loop_body_eq _ _ _ _ _ _ _ _ _ _ [] 0). cbv zeta.
  destruct (isinstance element (ignored_types_or_default ignored_types));
    reflexivity.
Qed.

Lemma truthy_app_r (xs ys : Py.str) :
  Py.truthy ys = true -> Py.truthy (xs ++ ys) = true.
Proof. destruct xs; [auto|reflexivity]. Qed.

Lemma truthy_app_l (xs ys : Py.str) :
  Py.truthy xs = true -> Py.truthy (xs ++ ys) = true.
Proof. destruct xs; [discriminate|reflexivity]. Qed.

Lemma class_name_truthy (c : ElementClass) : Py.truthy (class_name c) = true.
Proof. destruct c; reflexivity. Qed.

(** The line of a node is never empty. *)
Lemma line_of_truthy (pretty : bool) (char_display_limit : Z)
      (_prefix : Py.str) (_is_root is_last : bool)
      (element : AbstractSemanticElement) :
  Py.truthy (line_of get_summary pretty char_display_limit _prefix _is_root
                     is_last element) = true.
Proof.
  unfold line_of. cbv zeta.
  set (level_text := match level element with Some _ => _ | None => _ end).
  set (contents := displayed_summary get_summary char_display_limit element).
  assert (Hname : Py.truthy
                    (if pretty
                     then ESC ++ Py.lit "[1;34m"
                              ++ (class_name (element_class element) ++ level_text)
                              ++ ESC ++ Py.lit "[0m"
                     else class_name (element_class element) ++ level_text)
                  = true).
  { destruct pretty; [reflexivity|].
    apply truthy_app_l, class_name_truthy. }
  assert (Hline : Py.truthy
                    (if negb _is_root
                     then _prefix ++ (if negb is_last then BRANCH else CORNER)
                            ++ (if pretty
                                then ESC ++ Py.lit "[1;34m"
                                       ++ (class_name (element_class element)
                                             ++ level_text)
                                       ++ ESC ++ Py.lit "[0m"
                                else class_name (element_class element)
                                       ++ level_text)
                     else (if pretty
                           then ESC ++ Py.lit "[1;34m"
                                  ++ (class_name (element_class element)
                                        ++ level_text)
                                  ++ ESC ++ Py.lit "[0m"
                           else class_name (element_class element) ++ level_text))
                  = true).
  { destruct (negb _is_root); [|exact Hname].
    apply truthy_app_r, truthy_app_r, Hname. }
  destruct (Py.truthy contents); [|exact Hline].
  now apply truthy_app_l.
Qed.

Lemma same_text_sym (sep : Py.str) (xs ys : list Py.str) :
  Py.same_text sep xs ys -> Py.same_text sep ys xs.
Proof. intros [E J]. split; [tauto|congruence]. Qed.

(** The strings of the roots, joined root by root. *)
Lemma roots_same_text (f : TreeNode -> list Py.str) (nodes : list TreeNode) :
  Py.same_text NEWLINE
    (filter Py.truthy (flat_map f nodes))
    (filter Py.truthy
       (map (fun node => Py.join NEWLINE (filter Py.truthy (f node))) nodes)).
Proof.
  induction nodes as [|node nodes IH]; [apply same_text_refl|].
  cbn [flat_map map]. rewrite filter_app.
  change (?x :: map ?g nodes) with ([x] ++ map g nodes). rewrite filter_app.
  apply same_text_app; [|exact IH].
  apply same_text_sym, same_text_joined, Forall_truthy_filter.
Qed.

Lemma tree_strings_root (pretty : option bool)
      (ignored_types : option (list ElementClass))
      (char_display_limit : option Z) (_prefix : Py.str)
      (nodes : list TreeNode) :
  tree_strings get_summary pretty ignored_types char_display_limit
               _prefix true nodes
  = flat_map (fun node =>
                loop_body get_summary pretty ignored_types char_display_limit
                          _prefix true 1 0 node)
             nodes.
Proof.
  unfold tree_strings. generalize (Z.of_nat (length nodes)) as len.
  generalize 0 at 1 as j.
  induction nodes as [|node nodes IH]; intros j len; [reflexivity|].
  cbn [enumerate_from flat_map]. rewrite IH.
  now rewrite (loop_body_root _ _ _ _ len j 1 0).
Qed.

End RenderArguments.

(** X1: a forest is rendered root by root: the output for a list of roots,
    or for a semantic tree, is the outputs of the single roots that are not
    empty, joined by new lines. *)
Theorem render_forest_root_by_root
        (get_summary : AbstractSemanticElement -> Py.str)
        (tree : RenderInput) (pretty : option bool)
        (ignored_types : option (list ElementClass))
        (char_display_limit : option Z) :
  render_top get_summary tree pretty ignored_types char_display_limit
  = Py.join NEWLINE
      (filter Py.truthy
         (map (fun node =>
                 render_top get_summary (OfNode node) pretty ignored_types
                            char_display_limit)
              (root_nodes tree))).
Proof.
  unfold render_top at 1. unfold render.
  change (match tree with
          | OfNode node => [node]
          | OfTree t => list_of_tree t
          | OfList nodes => nodes
          end) with (root_nodes tree).
  rewrite tree_strings_root.
  rewrite (proj2 (roots_same_text _ (root_nodes tree))).
  do 2 f_equal. apply map_ext. intros node.
  unfold render_top, render. rewrite tree_strings_root.
  cbn [flat_map]. now rewrite app_nil_r.
Qed.

(** X2: the output is the empty string exactly when every root node is of
    an ignored class, the empty list of roots included. *)
Theorem render_empty_iff_roots_ignored
        (get_summary : AbstractSemanticElement -> Py.str)
        (tree : RenderInput) (pretty : option bool)
        (ignored_types : option (list ElementClass))
        (char_display_limit : option Z) :
  render_top get_summary tree pretty ignored_types char_display_limit = []
  <-> Forall (fun node =>
                isinstance (semantic_element node)
                           (ignored_types_or_default ignored_types) = true)
             (root_nodes tree).
Proof.
  unfold render_top, render.
  change (match tree with
          | OfNode node => [node]
          | OfTree t => list_of_tree t
          | OfList nodes => nodes
          end) with (root_nodes tree).
  rewrite tree_strings_root.
  induction (root_nodes tree) as [|node nodes IH].
  - split; [constructor|reflexivity].
  - cbn [flat_map]. destruct node as [element cs].
    rewrite (loop_body_eq _ _ _ _ _ _ _ _ _ _ [] 0). cbv zeta.
    destruct (isinstance element (ignored_types_or_default ignored_types)) eqn:E.
    + cbn [app]. rewrite IH. split.
      * intros H. constructor; [exact E|exact H].
      * intros H. now inversion H.
    + split.
      * intros H. exfalso.
        cbn [app filter] in H. rewrite line_of_truthy in H.
        match type of H with
        | Py.join _ (?l :: ?rest) = [] =>
            assert (Ht : Py.truthy (Py.join NEWLINE (l :: rest)) = true)
        end.
        { apply truthy_join; [|discriminate].
          constructor; [apply line_of_truthy|].
          apply (Forall_truthy_filter (_ :: _)). }
        rewrite H in Ht. discriminate.
      * intros H. inversion H as [|? ? Hn _]. cbn [semantic_element] in Hn.
        congruence.
Qed.

(** X3: leaving [pretty] out is [pretty=True]; leaving [ignored_types] out,
    or giving the empty tuple, is [(IrrelevantElement,)]: the empty tuple
    does not turn the filter off. *)
Theorem optional_arguments_default
        (get_summary : AbstractSemanticElement -> Py.str)
        (tree : RenderInput) (pretty : option bool)
        (ignored_types : option (list ElementClass))
        (char_display_limit : option Z)
        (_nodes : option (list TreeNode))
        (_level : Z) (_prefix : Py.str) (_is_root : bool) :
  render get_summary tree None ignored_types char_display_limit
         _nodes _level _prefix _is_root
  = render get_summary tree (Some true) ignored_types char_display_limit
           _nodes _level _prefix _is_root
  /\ render get_summary tree pretty None char_display_limit
            _nodes _level _prefix _is_root
     = render get_summary tree pretty (Some [IrrelevantElement]) char_display_limit
              _nodes _level _prefix _is_root
  /\ render get_summary tree pretty (Some []) char_display_limit
            _nodes _level _prefix _is_root
     = render get_summary tree pretty (Some [IrrelevantElement]) char_display_limit
              _nodes _level _prefix _is_root.
Proof.
  repeat split; now apply render_effective.
Qed.

(** ** Rendering: the displayed summary *)

(** X4: under a limit of at least five the displayed summary never exceeds
    the limit: a stripped summary within the limit is displayed whole, and a
    longer one as its first and last [(limit - 3) // 2] characters around
    three dots, which makes [limit] characters when the limit is odd and
    [limit - 1] when it is even. *)
Theorem displayed_summary_within_limit
        (get_summary : AbstractSemanticElement -> Py.str)
        (limit : Z) (element : AbstractSemanticElement) :
  5 <= limit ->
  let contents := Py.strip (get_summary element) in
  let displayed :=
    displayed_summary get_summary (char_display_limit_or_default (Some limit))
                      element in
  let half := Z.to_nat ((limit - 3) / 2) in
  Z.of_nat (length displayed) <= limit
  /\ (Z.of_nat (length contents) <= limit -> displayed = contents)
  /\ (limit < Z.of_nat (length contents) ->
      displayed
      = firstn half contents ++ Py.lit "..."
               ++ skipn (length contents - half) contents
      /\ Z.of_nat (length displayed) = if Z.odd limit then limit else limit - 1).
Proof.
  intros H5 contents displayed half.
  assert (Heff : char_display_limit_or_default (Some limit) = limit).
  { unfold char_display_limit_or_default.
    destruct (limit =? 0) eqn:E0; destruct (limit >? 0) eqn:E1; simpl; lia. }
  subst displayed. rewrite Heff. unfold displayed_summary. fold contents.
  split; [now apply truncate_fits|]. split; [apply truncate_short|].
  intros Hlong.
  destruct (truncate_long limit contents H5 Hlong) as (Heq & Hlen & _).
  fold half in Heq, Hlen. split; [exact Heq|].
  rewrite Hlen. subst half.
  destruct (Z.odd limit) eqn:Hodd.
  - apply Z.odd_spec in Hodd. destruct Hodd as [k ->].
    replace ((2 * k + 1 - 3) / 2) with (k - 1)
      by (apply (Z.div_unique _ 2 (k - 1) 0); lia).
    lia.
  - rewrite <- Z.negb_even in Hodd. apply negb_false_iff in Hodd.
    apply Z.even_spec in Hodd. destruct Hodd as [k ->].
    replace ((2 * k - 3) / 2) with (k - 2)
      by (apply (Z.div_unique _ 2 (k - 2) 1); lia).
    lia.
Qed.

Lemma displayed_summary_within_limit_witness :
  5 <= 50
  /\ Z.of_nat (length (displayed_summary text_summary
                         (char_display_limit_or_default (Some 50))
                         (semantic_element (leaf TextElement eighty)))) <= 50.
Proof.
  split; [lia|].
  exact (proj1 (displayed_summary_within_limit text_summary 50
                  (semantic_element (leaf TextElement eighty)) ltac:(lia))).
Defined.

(** X5: under a limit of 1 to 4 a stripped summary over the limit is
    displayed longer than it is: with 3 or 4 as three dots and the whole
    text, with 1 or 2 as the text without its last character, three dots,
    and the text without its first character. *)
Theorem small_limit_lengthens
        (get_summary : AbstractSemanticElement -> Py.str)
        (limit : Z) (element : AbstractSemanticElement) :
  1 <= limit <= 4 ->
  limit < Z.of_nat (length (Py.strip (get_summary element))) ->
  let contents := Py.strip (get_summary element) in
  let displayed :=
    displayed_summary get_summary (char_display_limit_or_default (Some limit))
                      element in
  (3 <= limit -> displayed = Py.lit "..." ++ contents)
  /\ (limit <= 2 ->
      displayed
      = firstn (length contents - 1) contents ++ Py.lit "..." ++ skipn 1 contents)
  /\ (length contents < length displayed)%nat.
Proof.
  intros Hlimit Hlong contents displayed. fold contents in Hlong.
  assert (Heff : char_display_limit_or_default (Some limit) = limit).
  { unfold char_display_limit_or_default.
    destruct (limit =? 0) eqn:E0; destruct (limit >? 0) eqn:E1; simpl; lia. }
  subst displayed. rewrite Heff. unfold displayed_summary. fold contents.
  unfold truncate.
  destruct (Z.of_nat (length contents) >? limit) eqn:E; [|lia]. cbv zeta.
  assert (Hhigh : 3 <= limit ->
                  Py.slice_to contents ((limit - 3) / 2) = []
                  /\ Py.slice_from contents (- ((limit - 3) / 2)) = contents).
  { intros H3.
    assert (Hh : (limit - 3) / 2 = 0) by (apply Z.div_small; lia).
    rewrite Hh. unfold Py.slice_to, Py.slice_from. cbn [Z.opp Z.ltb Z.compare].
    rewrite !Z.min_l by lia. split; reflexivity. }
  assert (Hlow : limit <= 2 ->
                 Py.slice_to contents ((limit - 3) / 2)
                 = firstn (length contents - 1) contents
                 /\ Py.slice_from contents (- ((limit - 3) / 2))
                    = skipn 1 contents).
  { intros H2.
    assert (Hh : (limit - 3) / 2 = -1)
      by (symmetry; apply (Z.div_unique _ 2 (-1) (limit - 1)); lia).
    rewrite Hh. unfold Py.slice_to, Py.slice_from.
    cbn [Z.opp Z.ltb Z.compare].
    rewrite Z.max_r, Z.min_l by lia.
    split; [f_equal; lia|reflexivity]. }
  split; [|split].
  - intros H3. destruct (Hhigh H3) as [-> ->]. reflexivity.
  - intros H2. destruct (Hlow H2) as [-> ->]. reflexivity.
  - destruct (Z_le_gt_dec 3 limit) as [H3|H2].
    + destruct (Hhigh H3) as [-> ->]. rewrite !length_app. simpl. lia.
    + destruct (Hlow ltac:(lia)) as [-> ->].
      rewrite !length_app, length_firstn, length_skipn. simpl. lia.
Qed.

Lemma small_limit_lengthens_witness :
  1 <= 2 <= 4
  /\ 2 < Z.of_nat (length (Py.strip (text_summary
                                       (semantic_element
                                          (leaf TextElement (Py.lit "abcd"))))))
  /\ displayed_summary text_summary (char_display_limit_or_default (Some 2))
       (semantic_element (leaf TextElement (Py.lit "abcd")))
     = Py.lit "abc...bcd".
Proof.
  split; [lia|]. split; [vm_compute; reflexivity|].
  exact (proj1 (proj2 (small_limit_lengthens text_summary 2
                         (semantic_element (leaf TextElement (Py.lit "abcd")))
                         ltac:(lia) ltac:(vm_compute; reflexivity)))
               ltac:(lia)).
Defined.

(** ** Rendering: connectors and level markers *)

Section LineFacts.

Variable get_summary : AbstractSemanticElement -> Py.str.

(** Below the root a line is the prefix, the connector, and the line the
    node would have as a root. *)
Lemma line_of_below_root (pretty : bool) (char_display_limit : Z)
      (_prefix : Py.str) (is_last : bool) (element : AbstractSemanticElement) :
  line_of get_summary pretty char_display_limit _prefix false is_last element
  = _prefix ++ (if is_last then CORNER else BRANCH)
      ++ line_of get_summary pretty char_display_limit [] true true element.
Proof.
  unfold line_of. cbv zeta. cbn [negb].
  destruct (Py.truthy (displayed_summary get_summary char_display_limit element));
    destruct is_last; cbn [negb]; now rewrite <- ?app_assoc.
Qed.

Lemma tree_strings_ignored (pretty : option bool)
      (ignored_types : option (list ElementClass))
      (char_display_limit : option Z) (_prefix : Py.str) (_is_root : bool)
      (len j : Z) (nodes : list TreeNode) :
  Forall (fun node =>
            isinstance (semantic_element node)
                       (ignored_types_or_default ignored_types) = true) nodes ->
  flat_map (fun '(i, node) =>
              loop_body get_summary pretty ignored_types char_display_limit
                        _prefix _is_root len i node)
           (enumerate_from j nodes) = [].
Proof.
  intros Hall. revert j.
  induction Hall as [|node nodes Hnode _ IH]; intros j; [reflexivity|].
  cbn [enumerate_from flat_map]. rewrite IH.
  now rewrite loop_body_ignored.
Qed.

(** The tree with an element map applied renders alike when the map keeps
    the class and the line of every element. *)
Lemma loop_body_map_elements
      (f : AbstractSemanticElement -> AbstractSemanticElement) :
  (forall e, element_class (f e) = element_class e) ->
  (forall pretty limit _prefix _is_root is_last e,
     line_of get_summary pretty limit _prefix _is_root is_last (f e)
     = line_of get_summary pretty limit _prefix _is_root is_last e) ->
  forall node pretty ignored_types char_display_limit _prefix _is_root len i,
    loop_body get_summary pretty ignored_types char_display_limit
              _prefix _is_root len i (map_elements f node)
    = loop_body get_summary pretty ignored_types char_display_limit
                _prefix _is_root len i node.
Proof.
  intros Hclass Hline.
  induction node as [element cs IH] using TreeNode_nested_ind.
  intros pretty ignored_types char_display_limit _prefix _is_root len i.
  cbn [map_elements].
  rewrite !(loop_body_eq _ _ _ _ _ _ _ _ _ _ [] 0). cbv zeta.
  unfold isinstance. rewrite Hclass, Hline.
  destruct (existsb _ _); [reflexivity|].
  do 2 f_equal. unfold render, tree_strings. rewrite length_map.
  do 2 f_equal. generalize (Z.of_nat (length cs)) as sub_len.
  generalize 0 as j.
  induction IH as [|c cs Hc _ IHcs]; intros j sub_len; [reflexivity|].
  cbn [map enumerate_from flat_map]. now rewrite Hc, IHcs.
Qed.

End LineFacts.

(** X6: the connector of a node is chosen by its position among all its
    siblings, the ignored ones included: a node followed only by ignored
    siblings is the last one printed and still gets the branch connector,
    not the corner it gets when it is alone. *)
Theorem ignored_sibling_keeps_branch
        (get_summary : AbstractSemanticElement -> Py.str)
        (tree : RenderInput) (pretty : option bool)
        (ignored_types : option (list ElementClass))
        (char_display_limit : option Z) (_level : Z) (_prefix : Py.str)
        (element : AbstractSemanticElement) (after : list TreeNode) :
  isinstance element (ignored_types_or_default ignored_types) = false ->
  after <> [] ->
  Forall (fun node =>
            isinstance (semantic_element node)
                       (ignored_types_or_default ignored_types) = true) after ->
  let label :=
    line_of get_summary (pretty_or_default pretty)
            (char_display_limit_or_default char_display_limit) [] true true
            element in
  render get_summary tree pretty ignored_types char_display_limit
         (Some [mkTreeNode element []]) _level _prefix false
  = _prefix ++ CORNER ++ label
  /\ render get_summary tree pretty ignored_types char_display_limit
            (Some (mkTreeNode element [] :: after)) _level _prefix false
     = _prefix ++ BRANCH ++ label.
Proof.
  intros Hvisible Hafter Hignored label. subst label.
  unfold render, tree_strings. cbn [enumerate_from flat_map].
  rewrite tree_strings_ignored by exact Hignored.
  rewrite !(loop_body_eq _ _ _ _ _ _ _ _ _ _ [] 0). cbv zeta.
  rewrite Hvisible. cbn [app length].
  assert (Hlast : (0 =? Z.of_nat (S (length after)) - 1) = false).
  { destruct after; [congruence|]. cbn [length]. apply Z.eqb_neq. lia. }
  rewrite Hlast. cbn [Z.of_nat Z.eqb Z.sub Z.add Z.opp Z.pos_sub negb].
  unfold render, tree_strings. cbn [enumerate_from flat_map filter Py.join Py.truthy].
  rewrite !line_of_truthy. cbn [Py.join].
  split; apply line_of_below_root.
Qed.

Lemma ignored_sibling_keeps_branch_witness :
  isinstance (mkElement TextElement (NavigableString (Py.lit "a")) None)
             (ignored_types_or_default None) = false
  /\ render text_summary (OfList []) (Some false) None None
            (Some [leaf TextElement (Py.lit "a");
                   leaf IrrelevantElement (Py.lit "b")]) 1 BLANK false
     = BLANK ++ BRANCH ++ Py.lit "TextElement: a".
Proof.
  split; [reflexivity|].
  exact (proj2 (ignored_sibling_keeps_branch text_summary (OfList []) (Some false)
                  None None 1 BLANK
                  (mkElement TextElement (NavigableString (Py.lit "a")) None)
                  [leaf IrrelevantElement (Py.lit "b")]
                  eq_refl ltac:(discriminate)
                  ltac:(repeat constructor))).
Defined.

(** X7: a level of zero is not shown: when the summary does not depend on
    it, a forest renders the same with every level of zero taken off, so
    the marker of level 0 is never printed. *)
Theorem zero_level_is_not_shown
        (get_summary : AbstractSemanticElement -> Py.str)
        (nodes : list TreeNode) (pretty : option bool)
        (ignored_types : option (list ElementClass))
        (char_display_limit : option Z) :
  (forall e, get_summary (clear_zero_level e) = get_summary e) ->
  render_top get_summary (OfList (map (map_elements clear_zero_level) nodes))
             pretty ignored_types char_display_limit
  = render_top get_summary (OfList nodes) pretty ignored_types char_display_limit.
Proof.
  intros Hsummary.
  unfold render_top, render, tree_strings. rewrite length_map. do 2 f_equal.
  generalize (Z.of_nat (length nodes)) as len. generalize 0 as j.
  induction nodes as [|node nodes IH]; intros j len; [reflexivity|].
  cbn [map enumerate_from flat_map]. rewrite IH. f_equal.
  apply loop_body_map_elements.
  - intros e. unfold clear_zero_level.
    destruct (level e) as [[| |]|]; reflexivity.
  - intros p limit _prefix _is_root is_last e.
    unfold line_of, displayed_summary. rewrite Hsummary.
    unfold clear_zero_level.
    destruct (level e) as [[| |]|] eqn:E; cbn [level element_class];
      rewrite ?E; reflexivity.
Qed.

Lemma zero_level_is_not_shown_witness :
  (forall e, text_summary (clear_zero_level e) = text_summary e)
  /\ render_top text_summary
       (OfList (map (map_elements clear_zero_level)
                    [mkTreeNode (mkElement TitleElement
                                   (NavigableString (Py.lit "T")) (Some 0)) []]))
       (Some false) None None
     = render_top text_summary
         (OfList [mkTreeNode (mkElement TitleElement
                                (NavigableString (Py.lit "T")) (Some 0)) []])
         (Some false) None None.
Proof.
  assert (H : forall e, text_summary (clear_zero_level e) = text_summary e).
  { intros e. unfold clear_zero_level, text_summary.
    destruct (level e) as [[| |]|]; reflexivity. }
  split; [exact H|].
  exact (zero_level_is_not_shown text_summary _ (Some false) None None H).
Defined.

(** ** Table metrics: success, bounds and digits *)

Section MetricsFacts.

(** No white-space character is a decimal digit. *)
Lemma isspace_not_decimal (c : Py.char) :
  Py.isspace c = true -> Py.isdecimal c = false.
Proof.
  unfold Py.isspace, Py.in_range.
  rewrite !orb_true_iff, !andb_true_iff, !N.leb_le, !N.eqb_eq.
  intros H.
  assert (Hc : In c [9; 10; 11; 12; 13; 28; 29; 30; 31; 32; 133; 160; 5760;
                     8192; 8193; 8194; 8195; 8196; 8197; 8198; 8199; 8200;
                     8201; 8202; 8232; 8233; 8239; 8287; 12288]%N).
  { simpl. lia. }
  clear H. revert c Hc. apply Forall_forall.
  repeat (constructor; [vm_compute; reflexivity|]). constructor.
Qed.

(** A text with a decimal digit is not blank. *)
Lemma digit_text_nonblank (s : Py.str) :
  existsb Py.isdecimal s = true -> nonblank s = true.
Proof.
  unfold nonblank. rewrite !existsb_exists.
  intros (c & Hin & Hd). exists c. split; [exact Hin|].
  unfold Py.nonspace. destruct (Py.isspace c) eqn:E; [|reflexivity].
  rewrite (isspace_not_decimal c E) in Hd. discriminate.
Qed.

Lemma digit_cell_is_digit (cell : PageElement) :
  digit_cell cell = existsb Py.isdecimal (text cell).
Proof.
  unfold digit_cell.
  destruct (existsb Py.isdecimal (text cell)) eqn:E.
  - now rewrite digit_text_nonblank.
  - apply andb_false_r.
Qed.

End MetricsFacts.

(** X8: once the single table is found, the call returns a metrics record
    exactly when every [tr] row of the table has a [td] below it; otherwise
    it raises the attribute error. *)
Theorem metrics_succeed_iff_rows_have_cells (bs4_tag table : PageElement) :
  get_single_table bs4_tag = Ok table ->
  ((exists m, get_approx_table_metrics bs4_tag = Ok m)
   <-> forall row, In row (find_all "tr" table) -> find "td" row <> None)
  /\ ((forall m, get_approx_table_metrics bs4_tag <> Ok m)
      -> get_approx_table_metrics bs4_tag = Raise AttributeError).
Proof.
  intros Ht. split; [split|].
  - intros (m & Hm).
    destruct (get_approx_table_metrics_ok_inv bs4_tag m Hm) as (t & Ht' & Hr & _).
    rewrite Ht in Ht'. injection Ht' as <-.
    exact (count_rows_ok_inv _ _ Hr).
  - intros Htd. unfold get_approx_table_metrics. rewrite Ht. cbn [bind].
    rewrite (count_rows_total _ Htd). cbn [bind]. eexists. reflexivity.
  - intros Hfail. unfold get_approx_table_metrics in *. rewrite Ht in *.
    cbn [bind] in *.
    destruct (count_rows (find_all "tr" table)) as [r|e] eqn:Hr.
    + exfalso. eapply Hfail. reflexivity.
    + cbn [bind]. f_equal.
      clear Hfail. revert e Hr.
      induction (find_all "tr" table) as [|row trs IH]; intros e Hr;
        [discriminate|].
      simpl in Hr. destruct (find "td" row); [|now injection Hr].
      destruct (count_rows trs) as [n|e'] eqn:Hn; [discriminate|].
      cbn [bind] in Hr. injection Hr as <-. now apply IH.
Qed.

Lemma metrics_succeed_iff_rows_have_cells_witness :
  get_single_table header_only_table = Ok header_only_table
  /\ ~ (forall row, In row (find_all "tr" header_only_table)
                    -> find "td" row <> None)
  /\ get_approx_table_metrics header_only_table = Raise AttributeError.
Proof.
  pose proof (metrics_succeed_iff_rows_have_cells
                header_only_table header_only_table eq_refl) as [Hiff Hraise].
  split; [reflexivity|]. split.
  - intros Hall. apply Hiff in Hall. destruct Hall as (m & Hm). discriminate Hm.
  - apply Hraise. intros m Hm. discriminate Hm.
Defined.

(** X9: a returned record is within bounds: [rows] lies between 0 and the
    number of [tr] rows of the table, [numbers] between 0 and the number of
    its [td] cells; a table with no row gives [rows = 0] and one with no
    data cell [numbers = 0]. *)
Theorem metrics_bounds (bs4_tag : PageElement) (m : ApproxTableMetrics) :
  get_approx_table_metrics bs4_tag = Ok m ->
  exists table,
    get_single_table bs4_tag = Ok table
    /\ 0 <= rows m <= Z.of_nat (length (find_all "tr" table))
    /\ 0 <= numbers m <= Z.of_nat (length (find_all "td" table))
    /\ (find_all "tr" table = [] -> rows m = 0)
    /\ (find_all "td" table = [] -> numbers m = 0).
Proof.
  intros H.
  destruct (get_approx_table_metrics_ok_inv bs4_tag m H) as (table & Ht & Hr & Hn).
  exists table. split; [exact Ht|].
  pose proof (count_rows_total _ (count_rows_ok_inv _ _ Hr)) as Hc.
  rewrite Hr in Hc. injection Hc as Hrows.
  rewrite count_numbers_spec in Hn.
  pose proof (filter_length_le first_cell_nonblank (find_all "tr" table)) as Hle1.
  pose proof (filter_length_le digit_cell (find_all "td" table)) as Hle2.
  repeat split; try lia.
  - intros E. rewrite E in Hrows. simpl in Hrows. exact Hrows.
  - intros E. rewrite E in Hn. simpl in Hn. exact Hn.
Qed.

Lemma metrics_bounds_witness :
  get_approx_table_metrics (Tag "table" []) = Ok (mkApproxTableMetrics 0 0)
  /\ exists table,
       get_single_table (Tag "table" []) = Ok table
       /\ 0 <= rows (mkApproxTableMetrics 0 0)
          <= Z.of_nat (length (find_all "tr" table))
       /\ 0 <= numbers (mkApproxTableMetrics 0 0)
          <= Z.of_nat (length (find_all "td" table))
       /\ (find_all "tr" table = [] -> rows (mkApproxTableMetrics 0 0) = 0)
       /\ (find_all "td" table = [] -> numbers (mkApproxTableMetrics 0 0) = 0).
Proof.
  split; [reflexivity|].
  exact (metrics_bounds (Tag "table" []) (mkApproxTableMetrics 0 0) eq_refl).
Defined.

(** X10: the test for a blank cell never takes a digit cell away: since no
    white-space character is a decimal digit, [numbers] is the number of
    [td] cells of the table whose text has a decimal digit. *)
Theorem numbers_is_cells_with_digit (bs4_tag : PageElement)
        (m : ApproxTableMetrics) :
  get_approx_table_metrics bs4_tag = Ok m ->
  exists table,
    get_single_table bs4_tag = Ok table
    /\ numbers m
       = Z.of_nat (length (filter (fun cell => existsb Py.isdecimal (text cell))
                                  (find_all "td" table))).
Proof.
  intros H.
  destruct (get_approx_table_metrics_ok_inv bs4_tag m H) as (table & Ht & _ & Hn).
  exists table. split; [exact Ht|].
  rewrite Hn, count_numbers_spec. do 2 f_equal.
  apply filter_ext. exact digit_cell_is_digit.
Qed.

Lemma numbers_is_cells_with_digit_witness :
  get_approx_table_metrics (table_of_grid example_grid)
  = Ok (mkApproxTableMetrics 2 5)
  /\ exists table,
       get_single_table (table_of_grid example_grid) = Ok table
       /\ numbers (mkApproxTableMetrics 2 5)
          = Z.of_nat (length (filter (fun cell => existsb Py.isdecimal (text cell))
                                     (find_all "td" table))).
Proof.
  split; [reflexivity|].
  exact (numbers_is_cells_with_digit (table_of_grid example_grid)
           (mkApproxTableMetrics 2 5) eq_refl).
Defined.

(** ** Table detection: what the step keeps *)

(** X11: the step never changes the node wrapper of an element; what it
    changes becomes a [TableElement]; and a second pass changes nothing,
    for one element and for a whole sequence. *)
Theorem table_detection_is_idempotent (Ctx : Type) (context : Ctx)
        (element : AbstractSemanticElement)
        (elements : list AbstractSemanticElement) :
  let step := fun e => TableParsingStep._transform_element Ctx e context in
  html_tag (step element) = html_tag element
  /\ (step element = element \/ element_class (step element) = TableElement)
  /\ step (step element) = step element
  /\ map html_tag (TableParsingStep.process Ctx elements context)
     = map html_tag elements
  /\ TableParsingStep.process Ctx
       (TableParsingStep.process Ctx elements context) context
     = TableParsingStep.process Ctx elements context.
Proof.
  cbv zeta.
  assert (Htag : forall e,
             html_tag (TableParsingStep._transform_element Ctx e context)
             = html_tag e).
  { intros e. unfold TableParsingStep._transform_element.
    destruct (is_unary_tree (html_tag e) && contains_tag "table" true (html_tag e));
      reflexivity. }
  assert (Hidem : forall e,
             TableParsingStep._transform_element Ctx
               (TableParsingStep._transform_element Ctx e context) context
             = TableParsingStep._transform_element Ctx e context).
  { intros e. unfold TableParsingStep._transform_element at 1. rewrite Htag.
    unfold TableParsingStep._transform_element.
    destruct (is_unary_tree (html_tag e) && contains_tag "table" true (html_tag e));
      reflexivity. }
  split; [apply Htag|]. split; [|split; [apply Hidem|split]].
  - unfold TableParsingStep._transform_element.
    destruct (is_unary_tree (html_tag element)
              && contains_tag "table" true (html_tag element));
      [right|left]; reflexivity.
  - unfold TableParsingStep.process. rewrite map_map. apply map_ext, Htag.
  - unfold TableParsingStep.process. rewrite map_map. apply map_ext, Hidem.
Qed.

(** ** The tree view of the visualizer *)

Section VisualizerFacts.

Variable get_pretty_class_name : ElementClass -> AbstractSemanticElement -> Py.str.
Variable remove_ix_tags : Py.str -> Py.str.
Variable str_of_tag : HtmlTag -> Py.str.
Variable prettify : HtmlTag -> Py.str.
Variable do_element_render_html : bool.
Variable expand_depth : Z.

Lemma titles_render_semantic_element (element : AbstractSemanticElement) :
  Visualizer.titles
    (Visualizer.render_semantic_element remove_ix_tags str_of_tag prettify
       do_element_render_html element) = [].
Proof.
  unfold Visualizer.render_semantic_element.
  destruct do_element_render_html; reflexivity.
Qed.

Lemma titles_render_tree_node (node : TreeNode) :
  forall depth,
    Visualizer.titles
      (Visualizer.render_tree_node get_pretty_class_name remove_ix_tags
         str_of_tag prettify do_element_render_html expand_depth node depth)
    = map (fun e => get_pretty_class_name (element_class e) e) (preorder node).
Proof.
  induction node as [element cs IH] using TreeNode_nested_ind. intros depth.
  cbn [Visualizer.render_tree_node Visualizer.titles preorder map flat_map].
  rewrite titles_render_semantic_element. cbn [app]. f_equal.
  induction IH as [|c cs Hc _ IHcs]; [reflexivity|].
  cbn [map flat_map]. now rewrite map_app, Hc, IHcs.
Qed.




End VisualizerFacts.

(** X12: the tree view opens one expander for every node of the tree, each
    before those of its children and in document order, whatever the
    class of the element and whatever the two view settings. *)
Theorem tree_view_shows_every_node
        (get_pretty_class_name : ElementClass -> AbstractSemanticElement -> Py.str)
        (remove_ix_tags : Py.str -> Py.str)
        (str_of_tag prettify : HtmlTag -> Py.str)
        (do_element_render_html : bool) (expand_depth : Z)
        (tree : SemanticTree) :
  flat_map Visualizer.titles
    (Visualizer.render_tree get_pretty_class_name remove_ix_tags str_of_tag
       prettify do_element_render_html expand_depth tree)
  = map (fun e => get_pretty_class_name (element_class e) e)
        (flat_map preorder (root_nodes_of tree)).
Proof.
  unfold Visualizer.render_tree.
  induction (root_nodes_of tree) as [|node nodes IH]; [reflexivity|].
  cbn [map flat_map]. now rewrite map_app, titles_render_tree_node, IH.
Qed.



(** ** Table metrics of a plain table *)

Section GridFacts.

Lemma find_all_Tag (name tag : string) (cs : list PageElement) :
  find_all name (Tag tag cs)
  = flat_map (fun c => (if has_name name c then [c] else []) ++ find_all name c) cs.
Proof.
  unfold find_all. cbn [descendants].
  induction cs as [|c cs IH]; [reflexivity|].
  cbn [flat_map]. rewrite filter_app, IH. cbn [filter app].
  destruct (has_name name c); reflexivity.
Qed.

Lemma find_all_td (name : string) (s : string) : find_all name (td s) = [].
Proof. destruct s; reflexivity. Qed.

Lemma text_td (s : string) : text (td s) = Py.lit s.
Proof. destruct s; [reflexivity|]. cbn. now rewrite app_nil_r. Qed.

Lemma find_all_td_tr (cells : list string) :
  find_all "td" (tr cells) = map td cells.
Proof.
  unfold tr. rewrite find_all_Tag.
  induction cells as [|c cells IH]; [reflexivity|].
  cbn [map flat_map]. rewrite IH, find_all_td. reflexivity.
Qed.

Lemma find_all_other_tr (name : string) (cells : list string) :
  String.eqb "td" name = false -> find_all name (tr cells) = [].
Proof.
  intros Hname. unfold tr. rewrite find_all_Tag.
  induction cells as [|c cells IH]; [reflexivity|].
  cbn [map flat_map]. rewrite IH, find_all_td.
  unfold td at 1. cbn [has_name]. now rewrite Hname.
Qed.

Lemma find_all_tr_grid (grid : list (list string)) :
  find_all "tr" (table_of_grid grid) = map tr grid.
Proof.
  unfold table_of_grid. rewrite find_all_Tag.
  induction grid as [|row grid IH]; [reflexivity|].
  cbn [map flat_map]. rewrite IH, find_all_other_tr by reflexivity. reflexivity.
Qed.

Lemma find_all_td_grid (grid : list (list string)) :
  find_all "td" (table_of_grid grid) = map td (concat grid).
Proof.
  unfold table_of_grid. rewrite find_all_Tag.
  induction grid as [|row grid IH]; [reflexivity|].
  cbn [map flat_map concat]. rewrite IH, find_all_td_tr, map_app. reflexivity.
Qed.

Lemma get_single_table_grid (grid : list (list string)) :
  get_single_table (table_of_grid grid) = Ok (table_of_grid grid).
Proof.
  unfold get_single_table, reachable_tables.
  assert (H : find_all "table" (table_of_grid grid) = []).
  { unfold table_of_grid. rewrite find_all_Tag.
    induction grid as [|row grid IH]; [reflexivity|].
    cbn [map flat_map]. rewrite IH, find_all_other_tr by reflexivity.
    reflexivity. }
  rewrite H. reflexivity.
Qed.

Lemma filter_map_length {A B : Type} (f : A -> B) (p : B -> bool) (l : list A) :
  length (filter p (map f l)) = length (filter (fun a => p (f a)) l).
Proof.
  induction l as [|a l IH]; [reflexivity|].
  cbn [map filter]. destruct (p (f a)); cbn [length]; now rewrite IH.
Qed.

End GridFacts.

(** X14: for a plain table, rows of [td] cells that hold their text, the
    call succeeds when every row has a cell: [rows] is then the number of
    rows whose first cell is not blank and [numbers] the number of cells
    with a decimal digit; a row with no cell makes it raise the attribute
    error. *)
Theorem plain_table_metrics (grid : list (list string)) :
  ((forall cells, In cells grid -> cells <> []) ->
   get_approx_table_metrics (table_of_grid grid)
   = Ok (mkApproxTableMetrics
           (Z.of_nat
              (length
                 (filter (fun cells =>
                            match cells with
                            | first :: _ => nonblank (Py.lit first)
                            | [] => false
                            end) grid)))
           (Z.of_nat
              (length
                 (filter (fun cell => existsb Py.isdecimal (Py.lit cell))
                         (concat grid))))))
  /\ (In [] grid ->
      get_approx_table_metrics (table_of_grid grid) = Raise AttributeError).
Proof.
  split.
  - intros Hcells. unfold get_approx_table_metrics.
    rewrite get_single_table_grid. cbn [bind].
    rewrite find_all_tr_grid, find_all_td_grid.
    rewrite count_rows_total.
    + cbn [bind]. rewrite count_numbers_spec, !filter_map_length.
      do 4 f_equal.
      * apply filter_ext. intros cells. unfold first_cell_nonblank, find.
        rewrite find_all_td_tr.
        destruct cells as [|first cells]; [reflexivity|].
        cbn [map hd_error]. now rewrite text_td.
      * apply filter_ext. intros cell.
        now rewrite digit_cell_is_digit, text_td.
    + intros row Hin. apply in_map_iff in Hin. destruct Hin as (cells & <- & Hin).
      unfold find. rewrite find_all_td_tr.
      specialize (Hcells cells Hin). destruct cells; [congruence|discriminate].
  - intros Hempty. unfold get_approx_table_metrics.
    rewrite get_single_table_grid. cbn [bind].
    rewrite find_all_tr_grid.
    rewrite (count_rows_raises _ (tr [])); [reflexivity| |reflexivity].
    apply in_map_iff. now exists [].
Qed.

Lemma plain_table_metrics_witness :
  (forall cells, In cells example_grid -> cells <> [])
  /\ get_approx_table_metrics (table_of_grid example_grid)
     = Ok (mkApproxTableMetrics 2 5)
  /\ In [] [["7"]; []]
  /\ get_approx_table_metrics (table_of_grid [["7"]; []]) = Raise AttributeError.
Proof.
  assert (H : forall cells, In cells example_grid -> cells <> []).
  { intros cells Hin. vm_compute in Hin.
    destruct Hin as [<-|[<-|[<-|[]]]]; discriminate. }
  assert (H' : In [] [["7"]; []]) by (right; left; reflexivity).
  split; [exact H|]. split; [|split; [exact H'|]].
  - exact (proj1 (plain_table_metrics example_grid) H).
  - exact (proj2 (plain_table_metrics [["7"]; []]) H').
Defined.

(** ** Rendering without highlighting *)

Section PlainFacts.

Variable get_summary : AbstractSemanticElement -> Py.str.

Lemma In_join (c : Py.char) (sep : Py.str) (xs : list Py.str) :
  In c (Py.join sep xs) -> In c sep \/ exists x, In x xs /\ In c x.
Proof.
  induction xs as [|x xs IH]; [intros []|].
  destruct xs as [|x' xs].
  - cbn [Py.join]. intros H. right. exists x. split; [now left|exact H].
  - rewrite join_cons by discriminate. intros H.
    apply in_app_or in H. destruct H as [H|H].
    + right. exists x. split; [now left|exact H].
    + apply in_app_or in H. destruct H as [H|H]; [now left|].
      destruct (IH H) as [Hs|(y & Hy & Hc)]; [now left|].
      right. exists y. split; [now right|exact Hc].
Qed.

Lemma In_lstrip (c : Py.char) (s : Py.str) : In c (Py.lstrip s) -> In c s.
Proof.
  induction s as [|a s IH]; [auto|].
  cbn [Py.lstrip]. destruct (Py.isspace a); [|auto].
  intros H. right. now apply IH.
Qed.

Lemma In_strip (c : Py.char) (s : Py.str) : In c (Py.strip s) -> In c s.
Proof.
  unfold Py.strip, Py.rstrip. intros H.
  apply in_rev in H. apply In_lstrip in H. apply in_rev in H.
  now apply In_lstrip.
Qed.

Lemma In_firstn_in (c : Py.char) (n : nat) (s : Py.str) :
  In c (firstn n s) -> In c s.
Proof.
  intros H. rewrite <- (firstn_skipn n s). apply in_or_app. now left.
Qed.

Lemma In_skipn_in (c : Py.char) (n : nat) (s : Py.str) :
  In c (skipn n s) -> In c s.
Proof.
  intros H. rewrite <- (firstn_skipn n s). apply in_or_app. now right.
Qed.

(** A displayed summary is made of dots and of characters of the summary. *)
Lemma In_truncate (c : Py.char) (limit : Z) (s : Py.str) :
  In c (truncate limit s) -> c = 46%N \/ In c s.
Proof.
  unfold truncate. destruct (Z.of_nat (length s) >? limit); [|auto].
  cbv zeta. unfold Py.slice_to, Py.slice_from. intros H.
  apply in_app_or in H. destruct H as [H|H];
    [right; eapply In_firstn_in; exact H|].
  apply in_app_or in H. destruct H as [H|H];
    [|right; eapply In_skipn_in; exact H].
  left. simpl in H. intuition congruence.
Qed.

Lemma uint_digits (c : Py.char) (d : Decimal.uint) :
  In c (Py.lit (NilEmpty.string_of_uint d)) -> (48 <= c <= 57)%N.
Proof.
  induction d as [|d IH|d IH|d IH|d IH|d IH|d IH|d IH|d IH|d IH|d IH];
    cbn [NilEmpty.string_of_uint]; unfold Py.lit;
    cbn [list_ascii_of_string map In];
    try (intros [<-|H]; [vm_compute; split; discriminate | now apply IH]).
  intros [].
Qed.

(** [str(n)] is made of digits and at most a minus sign. *)
Lemma str_of_int_chars (c : Py.char) (n : Z) :
  In c (Py.str_of_int n) -> c = 45%N \/ (48 <= c <= 57)%N.
Proof.
  unfold Py.str_of_int, NilZero.string_of_int, NilZero.string_of_uint.
  destruct (Z.to_int n) as [d|d].
  - destruct d; try (intros H; right; revert H; apply uint_digits).
    intros H. right. revert H. apply (uint_digits c (Decimal.D0 Decimal.Nil)).
  - unfold Py.lit. cbn [list_ascii_of_string map In].
    intros [<-|H]; [now left|right].
    destruct d; try (revert H; apply uint_digits).
    revert H. apply (uint_digits c (Decimal.D0 Decimal.Nil)).
Qed.

Lemma class_name_no_escape (cls : ElementClass) : ~ In 27%N (class_name cls).
Proof. destruct cls; vm_compute; intuition discriminate. Qed.

(** Without highlighting a line has an escape character only from the
    prefix or from the summary. *)
Lemma line_of_no_escape (limit : Z) (_prefix : Py.str) (_is_root is_last : bool)
      (element : AbstractSemanticElement) :
  ~ In 27%N _prefix ->
  ~ In 27%N (get_summary element) ->
  ~ In 27%N (line_of get_summary false limit _prefix _is_root is_last element).
Proof.
  intros Hprefix Hsummary.
  assert (Hcontents : ~ In 27%N (displayed_summary get_summary limit element)).
  { unfold displayed_summary. intros H. apply In_truncate in H.
    destruct H as [H|H]; [discriminate|]. now apply In_strip in H. }
  assert (Hlevel : ~ In 27%N
                     match level element with
                     | Some lvl =>
                         if lvl =? 0 then []
                         else Py.lit "[L" ++ Py.str_of_int lvl ++ Py.lit "]"
                     | None => []
                     end).
  { destruct (level element) as [lvl|]; [|intros []].
    destruct (lvl =? 0); [intros []|]. intros H.
    apply in_app_or in H. destruct H as [H|H];
      [vm_compute in H; intuition discriminate|].
    apply in_app_or in H. destruct H as [H|H];
      [|vm_compute in H; intuition discriminate].
    apply str_of_int_chars in H. destruct H as [H|H]; [discriminate|lia]. }
  assert (Hname : ~ In 27%N
                    (class_name (element_class element)
                       ++ match level element with
                          | Some lvl =>
                              if lvl =? 0 then []
                              else Py.lit "[L" ++ Py.str_of_int lvl ++ Py.lit "]"
                          | None => []
                          end)).
  { intros H. apply in_app_or in H. destruct H as [H|H]; [|now apply Hlevel].
    now apply class_name_no_escape in H. }
  unfold line_of. cbv zeta.
  set (name := class_name (element_class element) ++ _) in *.
  assert (Hline : ~ In 27%N
                    (if negb _is_root
                     then _prefix ++ (if negb is_last then BRANCH else CORNER)
                                  ++ name
                     else name)).
  { destruct (negb _is_root); [|exact Hname]. intros H.
    apply in_app_or in H. destruct H as [H|H]; [now apply Hprefix|].
    apply in_app_or in H. destruct H as [H|H]; [|now apply Hname].
    destruct (negb is_last); vm_compute in H; intuition discriminate. }
  destruct (Py.truthy (displayed_summary get_summary limit element));
    [|exact Hline].
  intros H. apply in_app_or in H. destruct H as [H|H]; [now apply Hline|].
  apply in_app_or in H. destruct H as [H|H]; [|now apply Hcontents].
  vm_compute in H. intuition discriminate.
Qed.

Lemma In_enumerate_from {A : Type} (j k : Z) (x : A) (xs : list A) :
  In (j, x) (enumerate_from k xs) -> In x xs.
Proof.
  revert k. induction xs as [|a xs IH]; intros k; [intros []|].
  cbn [enumerate_from In]. intros [H|H]; [left; congruence|right; eauto].
Qed.

Lemma loop_body_no_escape (node : TreeNode) :
  (forall e, ~ In 27%N (get_summary e)) ->
  forall pretty ignored_types char_display_limit _prefix _is_root len i,
    pretty_or_default pretty = false ->
    ~ In 27%N _prefix ->
    Forall (fun s => ~ In 27%N s)
           (loop_body get_summary pretty ignored_types char_display_limit
                      _prefix _is_root len i node).
Proof.
  intros Hsummary.
  induction node as [element cs IH] using TreeNode_nested_ind.
  intros pretty ignored_types char_display_limit _prefix _is_root len i
         Hplain Hprefix.
  rewrite (loop_body_eq _ _ _ _ _ _ _ _ _ _ [] 0). cbv zeta. rewrite Hplain.
  destruct (isinstance element (ignored_types_or_default ignored_types));
    [constructor|].
  constructor; [now apply line_of_no_escape|].
  constructor; [|constructor].
  assert (Hsub : ~ In 27%N
                   (_prefix ++ (if _is_root then _prefix
                                else if negb (i =? len - 1) then PIPE else BLANK))).
  { intros H. apply in_app_or in H.
    destruct H as [H|H]; [now apply Hprefix|].
    destruct _is_root; [now apply Hprefix|].
    destruct (negb (i =? len - 1)); vm_compute in H; intuition discriminate. }
  unfold render, tree_strings. intros H. apply In_join in H.
  destruct H as [H|(x & Hx & Hc)]; [vm_compute in H; intuition discriminate|].
  apply filter_In in Hx. destruct Hx as [Hx _].
  apply in_flat_map in Hx. destruct Hx as ([j c] & Hjc & Hx).
  apply In_enumerate_from in Hjc.
  rewrite Forall_forall in IH.
  pose proof (IH c Hjc (Some false)
                 (Some (ignored_types_or_default ignored_types))
                 (Some (char_display_limit_or_default char_display_limit))
                 _ false (Z.of_nat (length cs)) j eq_refl Hsub) as Hchild.
  rewrite Forall_forall in Hchild. exact (Hchild x Hx Hc).
Qed.

End PlainFacts.

(** X15: without highlighting the output has no escape character unless a
    summary has one: [pretty=False] prints no colour code. *)
Theorem plain_render_has_no_escape
        (get_summary : AbstractSemanticElement -> Py.str)
        (tree : RenderInput)
        (ignored_types : option (list ElementClass))
        (char_display_limit : option Z) :
  (forall e, ~ In 27%N (get_summary e)) ->
  ~ In 27%N (render_top get_summary tree (Some false) ignored_types
                        char_display_limit).
Proof.
  intros Hsummary H. unfold render_top, render, tree_strings in H.
  apply In_join in H.
  destruct H as [H|(x & Hx & Hc)]; [vm_compute in H; intuition discriminate|].
  apply filter_In in Hx. destruct Hx as [Hx _].
  apply in_flat_map in Hx. destruct Hx as ([j node] & _ & Hx).
  pose proof (loop_body_no_escape get_summary node Hsummary (Some false)
                ignored_types char_display_limit [] true
                (Z.of_nat
                   (length
                      match tree with
                      | OfNode n => [n]
                      | OfTree t => list_of_tree t
                      | OfList nodes => nodes
                      end))
                j eq_refl (fun F => F)) as Hnode.
  rewrite Forall_forall in Hnode. exact (Hnode x Hx Hc).
Qed.

Lemma plain_render_has_no_escape_witness :
  (forall e, ~ In 27%N (class_name (element_class e)))
  /\ ~ In 27%N (render_top (fun e => class_name (element_class e))
                           (OfNode hidden_child) (Some false) None None).
Proof.
  assert (H : forall e, ~ In 27%N (class_name (element_class e)))
    by (intros e; apply class_name_no_escape).
  split; [exact H|].
  exact (plain_render_has_no_escape (fun e => class_name (element_class e))
           (OfNode hidden_child) None None H).
Defined.
